(** * photos/add_exif_data_from_filename.py

    A shallow embedding of the two functions of the script,
    [extract_datetime_from_filename] and [process_images], and the proofs of
    the properties its specification states about them.

    Modelling choices, once and for all:
    - a Python [str] is a [list ascii]; the digits [\d] of the patterns are
      the ASCII digits (a filename with non-ASCII decimal digits is outside
      the model);
    - Python's [int] is [Z];
    - [re] is a backtracking matcher with Python's preferences (leftmost
      start, greedy quantifiers, alternatives in order), capture groups
      included;
    - [datetime.strptime] follows CPython's [_strptime]: the format is turned
      into a regular expression, matched at the start of the data, the whole
      data must be consumed, and the [datetime] constructor checks the ranges;
    - [strftime] is CPython's on Linux, which hands the format to glibc:
      [%Y] is the year in decimal without padding, so a year before 1000 has
      fewer than four digits; [%m], [%d], [%H], [%M], [%S] have two digits;
    - paths are joined as [posixpath] joins them;
    - the file system and the external tool are oracles on an abstract world;
      every call to them is recorded in a trace; a call that fails raises
      [OSError]: the [ValueError] of a path that holds a NUL character and
      the [UnicodeDecodeError] of tool output that cannot be decoded are
      outside the model (paths have no NUL, the output is decoded text);
    - [print] calls are diagnostics and are not modelled. *)

From Stdlib Require Import Ascii String List ZArith NArith Bool Lia Arith.
Import ListNotations.

Set Implicit Arguments.

Local Open Scope char_scope.
Local Open Scope list_scope.

(** ** Strings *)

Definition str : Type := list ascii.

(** A Python string literal. *)
Definition py (s : string) : str := list_ascii_of_string s.

Definition code (c : ascii) : N := N_of_ascii c.

(** [lo <= c <= hi], the class [[lo-hi]]. *)
Definition in_range (lo hi c : ascii) : bool :=
  (code lo <=? code c)%N && (code c <=? code hi)%N.

Definition is_char (x c : ascii) : bool := Ascii.eqb x c.

(** [\d] on ASCII text. *)
Definition is_digit (c : ascii) : bool := in_range "0" "9" c.

(** [[-._]] *)
Definition is_sep (c : ascii) : bool :=
  is_char "-" c || is_char "." c || is_char "_" c.

(** [.] without DOTALL: anything but a line feed. *)
Definition not_newline (c : ascii) : bool := negb (is_char "010" c).

(** A string is true when it is not empty; [None] is false. *)
Definition truthy (o : option str) : bool :=
  match o with
  | Some (_ :: _) => true
  | _ => false
  end.

(** ** A backtracking matcher for the fragment of [re] the program uses *)

Inductive regex : Type :=
| Eps                                  (* the empty pattern *)
| Cls (p : ascii -> bool)              (* one character of a class *)
| Cat (r1 r2 : regex)                  (* r1 r2 *)
| Alt (r1 r2 : regex)                  (* r1|r2, r1 tried first *)
| Opt (r : regex)                      (* r?, greedy *)
| StarCls (p : ascii -> bool)          (* [class]*, greedy *)
| Grp (n : nat) (r : regex).           (* a capture group *)

(** The groups captured so far. *)
Definition caps : Type := nat -> option str.

Definition no_caps : caps := fun _ => None.

Definition set_group (n : nat) (v : str) (c : caps) : caps :=
  fun m => if Nat.eqb m n then Some v else c m.

(** What was consumed between the input [s] and its suffix [s']. *)
Definition taken (s s' : str) : str := firstn (length s - length s') s.

Arguments taken : simpl never.

Definition orelse {A} (x y : option A) : option A :=
  match x with
  | Some v => Some v
  | None => y
  end.

(** Greedy repetition of a class: take one more character when possible and
    come back to the shorter match when the rest fails. *)
Fixpoint star {A} (p : ascii -> bool) (s : str) (k : str -> option A)
  : option A :=
  match s with
  | a :: s' => if p a then orelse (star p s' k) (k s) else k s
  | [] => k s
  end.

(** [bt r s c k]: match [r] at the start of [s] with captures [c], then
    continue with [k] on the rest; the first success in Python's order of
    preference wins. *)
Fixpoint bt {A} (r : regex) (s : str) (c : caps)
  (k : str -> caps -> option A) {struct r} : option A :=
  match r with
  | Eps => k s c
  | Cls p =>
      match s with
      | a :: s' => if p a then k s' c else None
      | [] => None
      end
  | Cat r1 r2 => bt r1 s c (fun s' c' => bt r2 s' c' k)
  | Alt r1 r2 => orelse (bt r1 s c k) (bt r2 s c k)
  | Opt r1 => orelse (bt r1 s c k) (k s c)
  | StarCls p => star p s (fun s' => k s' c)
  | Grp n r1 => bt r1 s c (fun s' c' => k s' (set_group n (taken s s') c'))
  end.

(** [re.match]: the rest of the input and the groups. *)
Definition re_match (r : regex) (s : str) : option (str * caps) :=
  bt r s no_caps (fun s' c => Some (s', c)).

(** [re.search]: the match at the leftmost position that has one. *)
Fixpoint re_search (r : regex) (s : str) : option caps :=
  match re_match r s with
  | Some (_, c) => Some c
  | None =>
      match s with
      | [] => None
      | _ :: s' => re_search r s'
      end
  end.

(** [re.sub(r"\D", "", s)] *)
Definition strip_nondigits (s : str) : str := filter is_digit s.

(** [s.ljust(width, fill)] *)
Definition ljust (s : str) (width : nat) (fill : ascii) : str :=
  s ++ repeat fill (width - length s).

(** ** The pattern of [extract_datetime_from_filename] *)

Definition digit : regex := Cls is_digit.

(** [\d{n}] *)
Fixpoint digits (n : nat) : regex :=
  match n with
  | O => Eps
  | S n' => Cat digit (digits n')
  end.

(** [[-._]?] *)
Definition sep_opt : regex := Opt (Cls is_sep).

(** [\d{4}[-._]?\d{2}[-._]?\d{2}] *)
Definition date_re : regex :=
  Cat (digits 4) (Cat sep_opt (Cat (digits 2) (Cat sep_opt (digits 2)))).

(** [\d{2}[-._]?\d{2}[-._]?\d{2}] *)
Definition time_re : regex :=
  Cat (digits 2) (Cat sep_opt (Cat (digits 2) (Cat sep_opt (digits 2)))).

(** [(\d{4}[-._]?\d{2}[-._]?\d{2})(?:.*(\d{2}[-._]?\d{2}[-._]?\d{2}))?] *)
Definition pattern : regex :=
  Cat (Grp 1 date_re) (Opt (Cat (StarCls not_newline) (Grp 2 time_re))).

(** ** [datetime] *)

Record datetime : Type := mk_datetime {
  year : Z; month : Z; day : Z; hour : Z; minute : Z; second : Z
}.

Definition is_leap (y : Z) : bool :=
  ((y mod 4 =? 0) && (negb (y mod 100 =? 0) || (y mod 400 =? 0)))%Z.

Definition days_in_month (y m : Z) : Z :=
  (if m =? 2 then (if is_leap y then 29 else 28)
   else if (m =? 4) || (m =? 6) || (m =? 9) || (m =? 11) then 30
   else 31)%Z.

(** The dates [datetime] accepts: years 1 to 9999 of the proleptic Gregorian
    calendar. *)
Definition valid_date (y m dd : Z) : bool :=
  ((1 <=? y) && (y <=? 9999) && (1 <=? m) && (m <=? 12)
   && (1 <=? dd) && (dd <=? days_in_month y m))%Z.

Definition valid_time (h mi s : Z) : bool :=
  ((0 <=? h) && (h <=? 23) && (0 <=? mi) && (mi <=? 59)
   && (0 <=? s) && (s <=? 59))%Z.

(** The constructor [datetime(y, m, d, h, mi, s)]; [None] is its
    [ValueError]. *)
Definition datetime_new (y m dd h mi s : Z) : option datetime :=
  if valid_date y m dd && valid_time h mi s
  then Some (mk_datetime y m dd h mi s)
  else None.

(** ** [datetime.strptime] *)

Definition digit_value (c : ascii) : Z := (Z.of_N (code c) - 48)%Z.

(** [int(s)] on the text of a group of the format: decimal digits, after a
    blank that [int] ignores in the case of [%d]. *)
Definition py_int (s : str) : Z :=
  fold_left (fun n c => if is_digit c then (10 * n + digit_value c)%Z else n)
            s 0%Z.

Inductive directive : Type := dir_Y | dir_m | dir_d | dir_H | dir_M | dir_S.

(** The named group of a directive, as a group number. *)
Definition gid (x : directive) : nat :=
  match x with
  | dir_Y => 1 | dir_m => 2 | dir_d => 3
  | dir_H => 4 | dir_M => 5 | dir_S => 6
  end%nat.

Definition directive_of (c : ascii) : option directive :=
  if is_char "Y" c then Some dir_Y
  else if is_char "m" c then Some dir_m
  else if is_char "d" c then Some dir_d
  else if is_char "H" c then Some dir_H
  else if is_char "M" c then Some dir_M
  else if is_char "S" c then Some dir_S
  else None.

(** The formats of this program are sequences of numeric directives; any
    other format is outside the model. *)
Fixpoint parse_format (fmt : str) : option (list directive) :=
  match fmt with
  | [] => Some []
  | c :: rest =>
      if is_char "%" c then
        match rest with
        | x :: rest' =>
            match directive_of x, parse_format rest' with
            | Some dx, Some ds => Some (dx :: ds)
            | _, _ => None
            end
        | [] => None
        end
      else None
  end.

(** The regular expression [_strptime.TimeRE] holds for each directive. *)
Definition directive_body (x : directive) : regex :=
  match x with
  | dir_Y => (* \d\d\d\d *)
      Cat digit (Cat digit (Cat digit digit))
  | dir_m => (* 1[0-2]|0[1-9]|[1-9] *)
      Alt (Cat (Cls (is_char "1")) (Cls (in_range "0" "2")))
     (Alt (Cat (Cls (is_char "0")) (Cls (in_range "1" "9")))
          (Cls (in_range "1" "9")))
  | dir_d => (* 3[0-1]|[1-2]\d|0[1-9]|[1-9]| [1-9] *)
      Alt (Cat (Cls (is_char "3")) (Cls (in_range "0" "1")))
     (Alt (Cat (Cls (in_range "1" "2")) digit)
     (Alt (Cat (Cls (is_char "0")) (Cls (in_range "1" "9")))
     (Alt (Cls (in_range "1" "9"))
          (Cat (Cls (is_char " ")) (Cls (in_range "1" "9"))))))
  | dir_H => (* 2[0-3]|[0-1]\d|\d *)
      Alt (Cat (Cls (is_char "2")) (Cls (in_range "0" "3")))
     (Alt (Cat (Cls (in_range "0" "1")) digit)
          digit)
  | dir_M => (* [0-5]\d|\d *)
      Alt (Cat (Cls (in_range "0" "5")) digit) digit
  | dir_S => (* 6[0-1]|[0-5]\d|\d *)
      Alt (Cat (Cls (is_char "6")) (Cls (in_range "0" "1")))
     (Alt (Cat (Cls (in_range "0" "5")) digit)
          digit)
  end.

Definition directive_re (x : directive) : regex := Grp (gid x) (directive_body x).

Fixpoint format_regex (ds : list directive) : regex :=
  match ds with
  | [] => Eps
  | x :: ds' => Cat (directive_re x) (format_regex ds')
  end.

(** The value of a directive in a match, or its default when the format does
    not have the directive. *)
Definition field (found : caps) (x : directive) (default : Z) : Z :=
  match found (gid x) with
  | Some v => py_int v
  | None => default
  end.

(** [datetime.strptime(data_string, fmt)]; [None] is its [ValueError]: the
    data does not match the format, unconverted data remains, or the values
    are out of range. *)
Definition strptime (data_string fmt : str) : option datetime :=
  match parse_format fmt with
  | None => None
  | Some ds =>
      match re_match (format_regex ds) data_string with
      | None => None
      | Some (_ :: _, _) => None
      | Some ([], found) =>
          datetime_new (field found dir_Y 1900) (field found dir_m 1)
                       (field found dir_d 1) (field found dir_H 0)
                       (field found dir_M 0) (field found dir_S 0)
      end
  end.

(** ** [datetime.strftime] *)

Definition digit_char (n : Z) : ascii := ascii_of_N (48 + Z.to_N n).

(** A number in decimal on [w] digits, zero-padded on the left. *)
Fixpoint zpad (w : nat) (n : Z) : str :=
  match w with
  | O => []
  | S w' => zpad w' (n / 10) ++ [digit_char (n mod 10)]
  end.

(** A number in decimal, without padding: [fuel] bounds the number of
    digits. *)
Fixpoint decimal_digits (fuel : nat) (n : Z) : str :=
  match fuel with
  | O => []
  | S fuel' =>
      if (n <? 10)%Z then [digit_char n]
      else decimal_digits fuel' (n / 10) ++ [digit_char (n mod 10)]
  end.

Definition decimal (n : Z) : str := decimal_digits (S (Z.to_nat n)) n.

(** The text of [%x].  [%Y] is the year as glibc writes it, in decimal
    without padding: [999] for the year 999. *)
Definition directive_text (x : ascii) (dt : datetime) : str :=
  match directive_of x with
  | Some dir_Y => decimal (year dt)
  | Some dir_m => zpad 2 (month dt)
  | Some dir_d => zpad 2 (day dt)
  | Some dir_H => zpad 2 (hour dt)
  | Some dir_M => zpad 2 (minute dt)
  | Some dir_S => zpad 2 (second dt)
  | None => if is_char "%" x then ["%"] else ["%"; x]
  end.

Fixpoint strftime (dt : datetime) (fmt : str) : str :=
  match fmt with
  | [] => []
  | c :: rest =>
      if is_char "%" c then
        match rest with
        | x :: rest' => directive_text x dt ++ strftime dt rest'
        | [] => [c]
        end
      else c :: strftime dt rest
  end.

(** ** [extract_datetime_from_filename] *)

Definition extract_datetime_from_filename (filename : str) : option datetime :=
  match re_search pattern filename with
  | Some m =>
      match m 1%nat with
      | Some date_str =>
          let time_str := m 2%nat in
          let cleaned_date_str := strip_nondigits date_str in
          (* if time_str: try: return strptime(datetime_str, ...) *)
          let combined :=
            match time_str with
            | Some t =>
                if truthy time_str then
                  let cleaned_time_str := ljust (strip_nondigits t) 6 "0" in
                  let datetime_str := cleaned_date_str ++ cleaned_time_str in
                  strptime datetime_str (py "%Y%m%d%H%M%S")
                else None
            | None => None
            end in
          match combined with
          | Some dt => Some dt
          (* no time, or ValueError above: parse the date only *)
          | None => strptime cleaned_date_str (py "%Y%m%d")
          end
      | None => None        (* group 1 takes part in every match *)
      end
  | None => None            (* no match: the function ends without return *)
  end.

(** ** Tokens, stated without the matcher

    The shapes the properties speak of: a run of [n] digits, an optional
    separator, and what is left of a text after a date token or a time token
    at its very start. *)

(** Exactly [n] characters, all of them digits. *)
Definition digits_n (n : nat) (x : str) : bool :=
  Nat.eqb (length x) n && forallb is_digit x.

(** Nothing, or one of [-], [.], [_]. *)
Definition opt_sep (x : str) : bool :=
  match x with
  | [] => true
  | [c] => is_sep c
  | _ => false
  end.

Fixpoint eat_digits (n : nat) (s : str) : option str :=
  match n with
  | O => Some s
  | S n' =>
      match s with
      | a :: s' => if is_digit a then eat_digits n' s' else None
      | [] => None
      end
  end.

Definition skip_sep (s : str) : str :=
  match s with
  | a :: s' => if is_sep a then s' else s
  | [] => []
  end.

Definition fields_rest (n : nat) (s : str) : option str :=
  match eat_digits n s with
  | Some s1 =>
      match eat_digits 2 (skip_sep s1) with
      | Some s2 => eat_digits 2 (skip_sep s2)
      | None => None
      end
  | None => None
  end.

(** The text after the date token [s] starts with; [None] when [s] does not
    start with a date token. *)
Definition date_rest (s : str) : option str := fields_rest 4 s.

(** The same for a time token. *)
Definition time_rest (s : str) : option str := fields_rest 2 s.

(** [t] is a token with a first field [a] of [n] digits and two fields [b]
    and [c] of two digits, separators between them or not. *)
Definition token (n : nat) (t a b c : str) : Prop :=
  exists x1 x2,
    t = a ++ x1 ++ b ++ x2 ++ c /\
    digits_n n a = true /\ opt_sep x1 = true /\ digits_n 2 b = true /\
    opt_sep x2 = true /\ digits_n 2 c = true.

(** The slice [s[i:i+n]]. *)
Definition slice (s : str) (i n : nat) : str := firstn n (skipn i s).

(** The numbers a text of digits [YYYYMMDD] or [YYYYMMDDHHMMSS] writes. *)
Definition year_of (x : str) : Z := py_int (slice x 0 4).
Definition month_of (x : str) : Z := py_int (slice x 4 2).
Definition day_of (x : str) : Z := py_int (slice x 6 2).
Definition hour_of (x : str) : Z := py_int (slice x 8 2).
Definition minute_of (x : str) : Z := py_int (slice x 10 2).
Definition second_of (x : str) : Z := py_int (slice x 12 2).

(** The digits write a date of the calendar, a time of the day. *)
Definition writes_date (x : str) : bool :=
  valid_date (year_of x) (month_of x) (day_of x).

Definition writes_time (x : str) : bool :=
  valid_time (hour_of x) (minute_of x) (second_of x).

(** The date the first eight digits write, at midnight. *)
Definition midnight_of (x : str) : datetime :=
  mk_datetime (year_of x) (month_of x) (day_of x) 0 0 0.

(** The time group of the pattern on the text [rest] that follows the date
    token, with the groups [c1] captured so far: the rest of the text after
    the time token and the groups, if a time token is found. *)
Definition time_after (c1 : caps) (rest : str) : option (str * caps) :=
  star not_newline rest
    (fun s' =>
       match time_rest s' with
       | Some r => Some (r, set_group 2 (taken s' r) c1)
       | None => None
       end).

(** A pattern that starts with a digit. *)
Definition digit_first (r : regex) : Prop :=
  forall A a s c (k : str -> caps -> option A),
    is_digit a = false -> bt r (a :: s) c k = None.

(** The widest text a pattern can match, repetitions left aside. *)
Fixpoint maxw (r : regex) : nat :=
  match r with
  | Eps => 0
  | Cls _ => 1
  | Cat r1 r2 => maxw r1 + maxw r2
  | Alt r1 r2 => Nat.max (maxw r1) (maxw r2)
  | Opt r1 => maxw r1
  | StarCls _ => 0
  | Grp _ r1 => maxw r1
  end.

Fixpoint star_free (r : regex) : bool :=
  match r with
  | Eps | Cls _ => true
  | Cat r1 r2 | Alt r1 r2 => star_free r1 && star_free r2
  | Opt r1 | Grp _ r1 => star_free r1
  | StarCls _ => false
  end.

(** The number two digits write. *)
Definition num2 (a b : ascii) : Z := (10 * digit_value a + digit_value b)%Z.

(** The two-digit texts and the one-digit texts a directive accepts. *)
Definition two (x : directive) (a b : ascii) : bool :=
  let v := num2 a b in
  match x with
  | dir_Y => false
  | dir_m => (1 <=? v) && (v <=? 12)
  | dir_d => (1 <=? v) && (v <=? 31)
  | dir_H => v <=? 23
  | dir_M => v <=? 59
  | dir_S => v <=? 61
  end%Z.

Definition one (x : directive) (a : ascii) : bool :=
  match x with
  | dir_Y => false
  | dir_m | dir_d => (1 <=? digit_value a)%Z
  | dir_H | dir_M | dir_S => true
  end.

(** Every directive of [ds] accepts its two digits of [s]. *)
Fixpoint all_two (ds : list directive) (s : str) : bool :=
  match ds, s with
  | [], [] => true
  | x :: ds', a :: b :: s' => two x a b && all_two ds' s'
  | _, _ => false
  end.

(** The groups of the match that gives two digits to every directive. *)
Fixpoint caps_two (ds : list directive) (s : str) (c : caps) : caps :=
  match ds, s with
  | x :: ds', a :: b :: s' => caps_two ds' s' (set_group (gid x) [a; b] c)
  | _, _ => c
  end.

(** ** The outside world of [process_images] *)

(** [posixpath.join(a, b)] *)
Definition os_path_join (a b : str) : str :=
  match b with
  | "/" :: _ => b
  | _ =>
      match a with
      | [] => b
      | _ => if is_char "/" (last a " ") then a ++ b else a ++ "/" :: b
      end
  end.

(** [str.isspace] on ASCII. *)
Definition is_space (c : ascii) : bool :=
  in_range "009" "013" c || in_range "028" "032" c.

Fixpoint lstrip (s : str) : str :=
  match s with
  | a :: s' => if is_space a then lstrip s' else s
  | [] => []
  end.

(** [s.strip()] *)
Definition strip (s : str) : str := rev (lstrip (rev (lstrip s))).

(** [subprocess.CompletedProcess] *)
Record CompletedProcess : Type := mk_completed {
  returncode : Z; stdout : str; stderr : str
}.

(** The exceptions the model follows.  The library can raise others on
    inputs outside the model, see the head of the file. *)
Inductive exn : Type :=
| TypeError            (* os.path.join(None, filename) *)
| OSError              (* a file operation failed, or exiftool cannot be started *)
| CalledProcessError.  (* check=True and a return code other than 0 *)

(** The calls that leave the program, in the order they are made. *)
Inductive event : Type :=
| Makedirs (path : str)                    (* os.makedirs(path, exist_ok=True) *)
| Listdir (path : str)                     (* os.listdir(path) *)
| Run (command : list str) (check : bool)  (* subprocess.run(command, check=..., capture_output=True, text=True) *)
| Move (src dst : str)                     (* shutil.move(src, dst) *)
| Copy2 (src dst : str).                   (* shutil.copy2(src, dst) *)

(** What the file system and the external tool answer, in a world [W] the
    calls may change.  A [false] or a [None] is the call raising [OSError]. *)
Record OS (W : Type) : Type := mk_OS {
  sys_makedirs : W -> str -> W * bool;
  sys_listdir : W -> str -> W * option (list str);
  sys_run : W -> list str -> W * option CompletedProcess;
  sys_move : W -> str -> str -> W * bool;
  sys_copy2 : W -> str -> str -> W * bool
}.

(** The [stats] dictionary: its six keys are fixed by the literal that
    creates it. *)
Inductive key : Type :=
| total_files | files_changed | files_skipped_no_date
| files_skipped_existing_metadata | files_metadata_replaced | files_error.

Record Stats : Type := mk_stats {
  n_total_files : Z;
  n_files_changed : Z;
  n_files_skipped_no_date : Z;
  n_files_skipped_existing_metadata : Z;
  n_files_metadata_replaced : Z;
  n_files_error : Z
}.

Definition zero_stats : Stats := mk_stats 0 0 0 0 0 0.

(** [stats[k]] *)
Definition get (k : key) (s : Stats) : Z :=
  match k with
  | total_files => n_total_files s
  | files_changed => n_files_changed s
  | files_skipped_no_date => n_files_skipped_no_date s
  | files_skipped_existing_metadata => n_files_skipped_existing_metadata s
  | files_metadata_replaced => n_files_metadata_replaced s
  | files_error => n_files_error s
  end.

(** [stats[k] += 1] *)
Definition incr (k : key) (s : Stats) : Stats :=
  let '(mk_stats t c nd em r e) := s in
  match k with
  | total_files => mk_stats (t + 1) c nd em r e
  | files_changed => mk_stats t (c + 1) nd em r e
  | files_skipped_no_date => mk_stats t c (nd + 1) em r e
  | files_skipped_existing_metadata => mk_stats t c nd (em + 1) r e
  | files_metadata_replaced => mk_stats t c nd em (r + 1) e
  | files_error => mk_stats t c nd em r (e + 1)
  end.

(** The arguments of [process_images]. *)
Record config : Type := mk_config {
  directory : str;
  processed_dir : option str;
  move : bool;
  in_place : bool;
  replace_old_metadata : bool
}.

(** ** A monad for the processor: state, trace and exceptions *)

Section Processor.

Variable W : Type.
Variable sys : OS W.

Record state : Type := mk_state { world : W; stats : Stats }.

(** A computation gives the calls it made, the state it leaves, and a value
    or the exception it raised.  The state survives an exception. *)
Definition M (A : Type) : Type := state -> list event * state * (A + exn).

Definition ret {A} (a : A) : M A := fun st => ([], st, inl a).

Definition raise {A} (e : exn) : M A := fun st => ([], st, inr e).

Definition bind {A B} (m : M A) (f : A -> M B) : M B :=
  fun st =>
    match m st with
    | (ev, st1, inl a) =>
        let '(ev2, st2, r) := f a st1 in (ev ++ ev2, st2, r)
    | (ev, st1, inr e) => (ev, st1, inr e)
    end.

(** [try: m except e: h] *)
Definition try_except {A} (m : M A) (handles : exn -> bool) (h : M A) : M A :=
  fun st =>
    match m st with
    | (ev, st1, inr e) =>
        if handles e
        then let '(ev2, st2, r) := h st1 in (ev ++ ev2, st2, r)
        else (ev, st1, inr e)
    | done => done
    end.

Notation "x <- m ;; k" := (bind m (fun x => k))
  (at level 61, m at next level, right associativity).
Notation "m ;; k" := (bind m (fun _ => k))
  (at level 61, right associativity).

Definition bump (k : key) : M unit :=
  fun st => ([], mk_state (world st) (incr k (stats st)), inl tt).

Definition new_stats : M unit :=
  fun st => ([], mk_state (world st) zero_stats, inl tt).

Definition read_stats : M Stats := fun st => ([], st, inl (stats st)).

(** A call that succeeds or raises [OSError]. *)
Definition call (ev : event) (f : W -> W * bool) : M unit :=
  fun st =>
    let '(w, ok) := f (world st) in
    ([ev], mk_state w (stats st), if ok then inl tt else inr OSError).

Definition os_makedirs (path : str) : M unit :=
  call (Makedirs path) (fun w => sys_makedirs sys w path).

Definition shutil_move (src dst : str) : M unit :=
  call (Move src dst) (fun w => sys_move sys w src dst).

Definition shutil_copy2 (src dst : str) : M unit :=
  call (Copy2 src dst) (fun w => sys_copy2 sys w src dst).

Definition os_listdir (path : str) : M (list str) :=
  fun st =>
    let '(w, r) := sys_listdir sys (world st) path in
    ([Listdir path], mk_state w (stats st),
     match r with Some names => inl names | None => inr OSError end).

(** [subprocess.run(command, check=check, capture_output=True, text=True)] *)
Definition subprocess_run (command : list str) (check : bool)
  : M CompletedProcess :=
  fun st =>
    let '(w, r) := sys_run sys (world st) command in
    ([Run command check], mk_state w (stats st),
     match r with
     | None => inr OSError
     | Some p =>
         if check && negb (returncode p =? 0)%Z then inr CalledProcessError
         else inl p
     end).

(** [os.path.join(a, b)] where [a] may be [None]. *)
Definition join_under (a : option str) (b : str) : M str :=
  match a with
  | Some a' => ret (os_path_join a' b)
  | None => raise TypeError
  end.

Fixpoint for_each {A} (xs : list A) (body : A -> M unit) : M unit :=
  match xs with
  | [] => ret tt
  | x :: xs' => body x ;; for_each xs' body
  end.

(** ** [process_images] *)

Definition check_command (input_file : str) : list str :=
  [py "exiftool"; py "-CreateDate"; py "-DateTimeOriginal";
   py "-s"; py "-s"; py "-s"; input_file].

Definition write_command (exif_date output_file : str) : list str :=
  [py "exiftool"; py "-overwrite_original";
   py "-CreateDate=" ++ exif_date; py "-DateTimeOriginal=" ++ exif_date;
   output_file].

(** Copy or move the file if not in-place. *)
Definition place (cfg : config) (input_file output_file : str) : M unit :=
  if negb (in_place cfg) then
    if move cfg then shutil_move input_file output_file
    else shutil_copy2 input_file output_file
  else ret tt.

Definition is_CalledProcessError (e : exn) : bool :=
  match e with
  | CalledProcessError => true
  | _ => false
  end.

(** Run exiftool command: the [try] statement that ends the body of the
    loop.  [has_metadata] is the truth of [result.stdout.strip()]. *)
Definition write_metadata (cfg : config) (exif_date output_file : str)
  (has_metadata : bool) : M unit :=
  try_except
    (subprocess_run (write_command exif_date output_file) true ;;
     if has_metadata && replace_old_metadata cfg
     then bump files_metadata_replaced
     else bump files_changed)
    is_CalledProcessError
    (bump files_error).

(** [output_file], the value of a conditional expression that joins the
    destination directory and the name only when not in place. *)
Definition output_file_of (cfg : config) (input_file filename : str) : M str :=
  if negb (in_place cfg) then join_under (processed_dir cfg) filename
  else ret input_file.

(** The body of the loop, for one name of the listing.  Returning is the
    end of the iteration, by [continue] or by reaching the end of the body. *)
Definition process_entry (cfg : config) (filename : str) : M unit :=
  bump total_files ;;
  let input_file := os_path_join (directory cfg) filename in
  output_file <- output_file_of cfg input_file filename ;;
  match extract_datetime_from_filename filename with
  | None => bump files_skipped_no_date
  | Some date_obj =>
      let exif_date := strftime date_obj (py "%Y:%m:%d 00:00:00") in
      result <- subprocess_run (check_command input_file) false ;;
      let has_metadata := truthy (Some (strip (stdout result))) in
      if has_metadata && negb (replace_old_metadata cfg) then
        bump files_skipped_existing_metadata
      else
        place cfg input_file output_file ;;
        write_metadata cfg exif_date output_file has_metadata
  end.

Definition process_images (cfg : config) : M Stats :=
  (if negb (in_place cfg) && truthy (processed_dir cfg) then
     match processed_dir cfg with
     | Some p => os_makedirs p
     | None => ret tt
     end
   else ret tt) ;;
  new_stats ;;
  names <- os_listdir (directory cfg) ;;
  for_each names (process_entry cfg) ;;
  read_stats.

(** A run of [process_images] from a world. *)
Definition run_process_images (cfg : config) (w : W)
  : list event * state * (Stats + exn) :=
  process_images cfg (mk_state w zero_stats).

End Processor.

Arguments ret {W A} a.
Arguments bump {W} k.
Arguments new_stats {W}.
Arguments read_stats {W}.

(** ** A world to run the processor in

    A directory of four names: one that gives a date, one that gives none,
    one on which the tool fails to write, and one that has date metadata
    already.  Every file operation succeeds. *)

Fixpoint str_eqb (a b : str) : bool :=
  match a, b with
  | [], [] => true
  | x :: a', y :: b' => Ascii.eqb x y && str_eqb a' b'
  | _, _ => false
  end.

Definition demo_names : list str :=
  [py "20230415_a.jpg"; py "notes.txt"; py "2023-04-16 bad.jpg";
   py "IMG_20230417_tagged.jpg"].

(** The answer of exiftool: the query prints a date for the tagged file and
    nothing for the others; the write fails on the bad file. *)
Definition demo_run (command : list str) : CompletedProcess :=
  match command with
  | [_; flag; _; _; file] =>
      if str_eqb flag (py "-overwrite_original")
         && str_eqb file (py "out/2023-04-16 bad.jpg")
      then mk_completed 1 [] (py "Error: not a valid image")
      else mk_completed 0 [] []
  | [_; _; _; _; _; _; file] =>
      if str_eqb file (py "in/IMG_20230417_tagged.jpg")
      then mk_completed 0 (py "2020:01:01 10:00:00" ++ ["010"]) []
      else mk_completed 0 [] []
  | _ => mk_completed 0 [] []
  end.

Definition demo_sys : OS unit :=
  mk_OS (fun w _ => (w, true))
        (fun w _ => (w, Some demo_names))
        (fun w command => (w, Some (demo_run command)))
        (fun w _ _ => (w, true))
        (fun w _ _ => (w, true)).

(** Copy to [out], and replace the metadata that exists. *)
Definition demo_cfg : config :=
  mk_config (py "in") (Some (py "out")) false false true.

(** The same without replacing, ... *)
Definition demo_cfg_keep : config :=
  mk_config (py "in") (Some (py "out")) false false false.

(** ... and with no destination directory. *)
Definition demo_cfg_nowhere : config :=
  mk_config (py "in") None false false false.

(** The path [process_entry] writes to, when it can be computed. *)
Definition output_path (cfg : config) (filename : str) : option str :=
  if in_place cfg then Some (os_path_join (directory cfg) filename)
  else
    match processed_dir cfg with
    | Some p => Some (os_path_join p filename)
    | None => None
    end.

(** The five outcomes of a file, counted together. *)
Definition outcomes (s : Stats) : Z :=
  (get files_changed s + get files_metadata_replaced s
   + get files_skipped_no_date s + get files_skipped_existing_metadata s
   + get files_error s)%Z.

(** ** The paths through the body of the loop

    The calls of one iteration, in the order the body makes them, and the
    seven ways the body can end, as a relation between the state before, the
    calls made, the state after and the way out. *)

(** Copy or move: nothing in place, else one call. *)
Definition placement_calls (cfg : config) (input_file out : str) : list event :=
  if in_place cfg then []
  else if move cfg then [Move input_file out] else [Copy2 input_file out].

(** Query, placement, write. *)
Definition entry_calls (cfg : config) (filename out : str) (date_obj : datetime)
  : list event :=
  let input_file := os_path_join (directory cfg) filename in
  Run (check_command input_file) false
    :: placement_calls cfg input_file out
    ++ [Run (write_command (strftime date_obj (py "%Y:%m:%d 00:00:00")) out)
            true].

(** The placement succeeds and leaves the world [w2]. *)
Definition placed {W} (sys : OS W) (cfg : config) (input_file out : str)
  (w1 w2 : W) : Prop :=
  if in_place cfg then w2 = w1
  else if move cfg then sys_move sys w1 input_file out = (w2, true)
       else sys_copy2 sys w1 input_file out = (w2, true).

(** The counter of a file whose write was started. *)
Definition written_key (cfg : config) (has_metadata : bool) (rc : Z) : key :=
  if (rc =? 0)%Z then
    if has_metadata && replace_old_metadata cfg
    then files_metadata_replaced else files_changed
  else files_error.

Inductive entry_run {W} (sys : OS W) (cfg : config) (filename : str)
  (st : state W) : list event -> state W -> unit + exn -> Prop :=
| run_no_destination :
    output_path cfg filename = None ->
    entry_run sys cfg filename st []
      (mk_state (world st) (incr total_files (stats st))) (inr TypeError)
| run_no_date out :
    output_path cfg filename = Some out ->
    extract_datetime_from_filename filename = None ->
    entry_run sys cfg filename st []
      (mk_state (world st)
         (incr files_skipped_no_date (incr total_files (stats st))))
      (inl tt)
| run_query_not_started out date_obj w1 :
    output_path cfg filename = Some out ->
    extract_datetime_from_filename filename = Some date_obj ->
    sys_run sys (world st)
      (check_command (os_path_join (directory cfg) filename)) = (w1, None) ->
    entry_run sys cfg filename st
      (firstn 1 (entry_calls cfg filename out date_obj))
      (mk_state w1 (incr total_files (stats st))) (inr OSError)
| run_skipped out date_obj w1 result :
    output_path cfg filename = Some out ->
    extract_datetime_from_filename filename = Some date_obj ->
    sys_run sys (world st)
      (check_command (os_path_join (directory cfg) filename))
    = (w1, Some result) ->
    truthy (Some (strip (stdout result))) = true ->
    replace_old_metadata cfg = false ->
    entry_run sys cfg filename st
      (firstn 1 (entry_calls cfg filename out date_obj))
      (mk_state w1
         (incr files_skipped_existing_metadata (incr total_files (stats st))))
      (inl tt)
| run_not_placed out date_obj w1 result w2 :
    output_path cfg filename = Some out ->
    extract_datetime_from_filename filename = Some date_obj ->
    sys_run sys (world st)
      (check_command (os_path_join (directory cfg) filename))
    = (w1, Some result) ->
    (truthy (Some (strip (stdout result))) = true ->
     replace_old_metadata cfg = true) ->
    in_place cfg = false ->
    (if move cfg
     then sys_move sys w1 (os_path_join (directory cfg) filename) out
     else sys_copy2 sys w1 (os_path_join (directory cfg) filename) out)
    = (w2, false) ->
    entry_run sys cfg filename st
      (firstn 2 (entry_calls cfg filename out date_obj))
      (mk_state w2 (incr total_files (stats st))) (inr OSError)
| run_write_not_started out date_obj w1 result w2 w3 :
    output_path cfg filename = Some out ->
    extract_datetime_from_filename filename = Some date_obj ->
    sys_run sys (world st)
      (check_command (os_path_join (directory cfg) filename))
    = (w1, Some result) ->
    (truthy (Some (strip (stdout result))) = true ->
     replace_old_metadata cfg = true) ->
    placed sys cfg (os_path_join (directory cfg) filename) out w1 w2 ->
    sys_run sys w2
      (write_command (strftime date_obj (py "%Y:%m:%d 00:00:00")) out)
    = (w3, None) ->
    entry_run sys cfg filename st
      (entry_calls cfg filename out date_obj)
      (mk_state w3 (incr total_files (stats st))) (inr OSError)
| run_written out date_obj w1 result w2 w3 done :
    output_path cfg filename = Some out ->
    extract_datetime_from_filename filename = Some date_obj ->
    sys_run sys (world st)
      (check_command (os_path_join (directory cfg) filename))
    = (w1, Some result) ->
    (truthy (Some (strip (stdout result))) = true ->
     replace_old_metadata cfg = true) ->
    placed sys cfg (os_path_join (directory cfg) filename) out w1 w2 ->
    sys_run sys w2
      (write_command (strftime date_obj (py "%Y:%m:%d 00:00:00")) out)
    = (w3, Some done) ->
    entry_run sys cfg filename st
      (entry_calls cfg filename out date_obj)
      (mk_state w3
         (incr (written_key cfg (truthy (Some (strip (stdout result))))
                            (returncode done))
               (incr total_files (stats st))))
      (inl tt).

(** The loop over the listing: every name in turn, until one raises. *)
Inductive loop_run {W} (sys : OS W) (cfg : config)
  : list str -> state W -> list event -> state W -> unit + exn -> Prop :=
| loop_done st : loop_run sys cfg [] st [] st (inl tt)
| loop_next filename names st ev1 st1 ev2 st2 r :
    entry_run sys cfg filename st ev1 st1 (inl tt) ->
    loop_run sys cfg names st1 ev2 st2 r ->
    loop_run sys cfg (filename :: names) st (ev1 ++ ev2) st2 r
| loop_raise filename names st ev1 st1 e :
    entry_run sys cfg filename st ev1 st1 (inr e) ->
    loop_run sys cfg (filename :: names) st ev1 st1 (inr e).

(** What [process_images] does before the listing. *)
Definition preparation_calls (cfg : config) : list event :=
  if negb (in_place cfg) && truthy (processed_dir cfg) then
    match processed_dir cfg with
    | Some p => [Makedirs p]
    | None => []
    end
  else [].

Definition makedirs_ok {W} (sys : OS W) (cfg : config) (w : W) : bool :=
  if negb (in_place cfg) && truthy (processed_dir cfg) then
    match processed_dir cfg with
    | Some p => snd (sys_makedirs sys w p)
    | None => true
    end
  else true.

(** The world [os.listdir] sees: after [os.makedirs], when it is called. *)
Definition world_at_listing {W} (sys : OS W) (cfg : config) (w : W) : W :=
  if negb (in_place cfg) && truthy (processed_dir cfg) then
    match processed_dir cfg with
    | Some p => fst (sys_makedirs sys w p)
    | None => w
    end
  else w.

(** The calls of a trace, by kind. *)
Definition is_query (e : event) : bool :=
  match e with Run _ false => true | _ => false end.

Definition is_write (e : event) : bool :=
  match e with Run _ true => true | _ => false end.

Definition is_placement (e : event) : bool :=
  match e with Move _ _ | Copy2 _ _ => true | _ => false end.

Definition count (p : event -> bool) (ev : list event) : Z :=
  Z.of_nat (length (filter p ev)).

(** ** The script run as a program *)

Definition input_directory : str := py "./Photos_All/Photos".
Definition processed_directory : str :=
  os_path_join input_directory (py "processed").
Definition move_files : bool := false.
Definition in_place_edit : bool := false.
Definition main_replace_old_metadata : bool := true.

(** The call of [process_images] under [if __name__ == "__main__"]; the
    lines it prints afterwards are not modelled. *)
Definition main {W} (sys : OS W) (w : W) : list event * state W * (Stats + exn) :=
  run_process_images sys
    (mk_config input_directory (Some processed_directory) move_files
               in_place_edit main_replace_old_metadata) w.

(** ** More worlds: a destination that cannot be written, no exiftool, a
    directory that cannot be listed, an empty directory *)

Definition demo_sys_readonly : OS unit :=
  mk_OS (fun w _ => (w, true))
        (fun w _ => (w, Some demo_names))
        (fun w command => (w, Some (demo_run command)))
        (fun w _ _ => (w, false))
        (fun w _ _ => (w, false)).

(** The query answers; the write cannot be started. *)
Definition demo_sys_no_write : OS unit :=
  mk_OS (fun w _ => (w, true))
        (fun w _ => (w, Some demo_names))
        (fun w command =>
           match command with
           | [_; _; _; _; _] => (w, None)
           | _ => (w, Some (demo_run command))
           end)
        (fun w _ _ => (w, true))
        (fun w _ _ => (w, true)).

Definition demo_sys_missing : OS unit :=
  mk_OS (fun w _ => (w, true))
        (fun w _ => (w, None))
        (fun w command => (w, Some (demo_run command)))
        (fun w _ _ => (w, true))
        (fun w _ _ => (w, true)).

Definition demo_sys_empty : OS unit :=
  mk_OS (fun w _ => (w, true))
        (fun w _ => (w, Some []))
        (fun w command => (w, Some (demo_run command)))
        (fun w _ _ => (w, true))
        (fun w _ _ => (w, true)).

(** In place, with a destination and a move flag that are not used. *)
Definition demo_cfg_in_place : config :=
  mk_config (py "in") (Some (py "out")) true true true.

(** * Proofs *)

Unset Implicit Arguments.

(** ** Characters *)

Lemma is_digit_cases (a : ascii) :
  is_digit a = true ->
  In a ["0"; "1"; "2"; "3"; "4"; "5"; "6"; "7"; "8"; "9"].
Proof.
  destruct a as [[] [] [] [] [] [] [] []]; intro H;
    try discriminate H; simpl; tauto.
Qed.

Lemma sep_not_digit (a : ascii) : is_sep a = true -> is_digit a = false.
Proof.
  unfold is_sep, is_char. intro H.
  apply orb_true_iff in H. destruct H as [H | H].
  - apply orb_true_iff in H.
    destruct H as [H | H]; apply Ascii.eqb_eq in H; subst a; reflexivity.
  - apply Ascii.eqb_eq in H; subst a; reflexivity.
Qed.

Lemma digit_not_sep (a : ascii) : is_digit a = true -> is_sep a = false.
Proof.
  intro H. destruct (is_sep a) eqn:E; [| reflexivity].
  apply sep_not_digit in E. congruence.
Qed.

(** ** The matcher *)

Lemma orelse_none_r {A} (x : option A) : orelse x None = x.
Proof. destruct x; reflexivity. Qed.

Lemma taken_app (t s : str) : taken (t ++ s) s = t.
Proof.
  unfold taken. rewrite length_app.
  replace (length t + length s - length s)%nat with (length t) by lia.
  rewrite firstn_app, Nat.sub_diag, firstn_all. simpl. apply app_nil_r.
Qed.

Lemma taken_1 (a : ascii) (s : str) : taken (a :: s) s = [a].
Proof. exact (taken_app [a] s). Qed.

Lemma taken_2 (a b : ascii) (s : str) : taken (a :: b :: s) s = [a; b].
Proof. exact (taken_app [a; b] s). Qed.

Lemma taken_4 (a b c e : ascii) (s : str) :
  taken (a :: b :: c :: e :: s) s = [a; b; c; e].
Proof. exact (taken_app [a; b; c; e] s). Qed.

(** [\d{n}] has one way to match. *)
Lemma bt_digits {A} (n : nat) (s : str) (c : caps)
  (k : str -> caps -> option A) :
  bt (digits n) s c k =
  match eat_digits n s with
  | Some s' => k s' c
  | None => None
  end.
Proof.
  revert s. induction n as [| n IH]; intro s; simpl.
  - reflexivity.
  - destruct s as [| a s]; [reflexivity |].
    destruct (is_digit a); [apply IH | reflexivity].
Qed.

Lemma digit_first_digits (n : nat) : digit_first (digits (S n)).
Proof. intros A a s c k H. simpl. now rewrite H. Qed.

Lemma digit_first_cat (n : nat) (r : regex) :
  digit_first (Cat (digits (S n)) r).
Proof. intros A a s c k H. simpl. now rewrite H. Qed.

(** An optional separator before a digit has one way to match as well: a
    separator is not a digit, so leaving it out fails. *)
Lemma bt_sep_opt {A} (r : regex) (s : str) (c : caps)
  (k : str -> caps -> option A) :
  digit_first r ->
  bt (Cat sep_opt r) s c k = bt r (skip_sep s) c k.
Proof.
  intro Hr. destruct s as [| a s]; [reflexivity |].
  cbn [bt sep_opt skip_sep].
  destruct (is_sep a) eqn:E.
  - rewrite (Hr A a s c k (sep_not_digit a E)). apply orelse_none_r.
  - reflexivity.
Qed.

Lemma bt_cat {A} (r1 r2 : regex) (s : str) (c : caps)
  (k : str -> caps -> option A) :
  bt (Cat r1 r2) s c k = bt r1 s c (fun s' c' => bt r2 s' c' k).
Proof. reflexivity. Qed.

Lemma bt_fields {A} (n : nat) (s : str) (c : caps)
  (k : str -> caps -> option A) :
  bt (Cat (digits n) (Cat sep_opt (Cat (digits 2) (Cat sep_opt (digits 2)))))
     s c k =
  match fields_rest n s with
  | Some s' => k s' c
  | None => None
  end.
Proof.
  unfold fields_rest.
  rewrite bt_cat, bt_digits.
  destruct (eat_digits n s) as [s1 |]; [| reflexivity].
  rewrite bt_sep_opt by apply digit_first_cat.
  rewrite bt_cat, bt_digits.
  destruct (eat_digits 2 (skip_sep s1)) as [s2 |]; [| reflexivity].
  rewrite bt_sep_opt by apply digit_first_digits.
  apply bt_digits.
Qed.

Lemma bt_grp {A} (n : nat) (r : regex) (s : str) (c : caps)
  (k : str -> caps -> option A) :
  bt (Grp n r) s c k =
  bt r s c (fun s' c' => k s' (set_group n (taken s s') c')).
Proof. reflexivity. Qed.

Lemma star_ext {A} (p : ascii -> bool) (s : str) (k1 k2 : str -> option A) :
  (forall x, k1 x = k2 x) -> star p s k1 = star p s k2.
Proof.
  intro H. induction s as [| a s IH]; simpl.
  - apply H.
  - rewrite IH, H. reflexivity.
Qed.

(** No position where the continuation succeeds: the repetition fails. *)
Lemma star_none {A} (p : ascii -> bool) (s : str) (k : str -> option A) :
  (forall i, k (skipn i s) = None) -> star p s k = None.
Proof.
  induction s as [| a s IH]; intro H; simpl.
  - exact (H 0%nat).
  - rewrite IH by (intro i; exact (H (S i))).
    rewrite (H 0%nat : k (a :: s) = None).
    destruct (p a); reflexivity.
Qed.

(** The repetition is greedy: of the positions it can reach, the last one
    where the continuation succeeds wins. *)
Lemma star_last {A} (p : ascii -> bool) (gap x : str) (k : str -> option A)
  (v : A) :
  forallb p gap = true ->
  k x = Some v ->
  (forall i, (0 < i)%nat -> k (skipn i x) = None) ->
  star p (gap ++ x) k = Some v.
Proof.
  intros Hgap Hx Hlater. induction gap as [| a gap IH]; simpl.
  - destruct x as [| b x]; simpl; [exact Hx |].
    rewrite (star_none p x k).
    + simpl. rewrite Hx. destruct (p b); reflexivity.
    + intro i. exact (Hlater (S i) (Nat.lt_0_succ i)).
  - simpl in Hgap. apply andb_true_iff in Hgap. destruct Hgap as [Ha Hgap].
    rewrite Ha, (IH Hgap). reflexivity.
Qed.

Lemma star_inv {A} (p : ascii -> bool) (s : str) (k : str -> option A)
  (v : A) :
  star p s k = Some v -> exists i, k (skipn i s) = Some v.
Proof.
  induction s as [| a s IH]; simpl; intro H.
  - exists 0%nat. exact H.
  - destruct (p a).
    + destruct (star p s k) as [u |] eqn:E.
      * simpl in H. destruct (IH H) as [i Hi]. exists (S i). exact Hi.
      * simpl in H. exists 0%nat. exact H.
    + exists 0%nat. exact H.
Qed.

(** ** [re.search] *)

Lemma re_search_here (r : regex) (s s' : str) (c : caps) :
  re_match r s = Some (s', c) -> re_search r s = Some c.
Proof. intro H. destruct s; simpl; rewrite H; reflexivity. Qed.

Lemma re_search_skip (r : regex) (pre x : str) :
  (forall i, (i < length pre)%nat -> re_match r (skipn i (pre ++ x)) = None) ->
  re_search r (pre ++ x) = re_search r x.
Proof.
  induction pre as [| a pre IH]; intro H; [reflexivity |].
  change (re_search r ((a :: pre) ++ x))
    with (match re_match r ((a :: pre) ++ x) with
          | Some (_, c) => Some c
          | None => re_search r (pre ++ x)
          end).
  rewrite (H 0%nat (Nat.lt_0_succ _) : re_match r ((a :: pre) ++ x) = None).
  apply IH. intros i Hi. apply (H (S i)). simpl. lia.
Qed.

Lemma re_search_inv (r : regex) (s : str) (c : caps) :
  re_search r s = Some c ->
  exists i s', re_match r (skipn i s) = Some (s', c).
Proof.
  induction s as [| a s IH]; simpl; intro H.
  - destruct (re_match r []) as [[s' c'] |] eqn:E; [| discriminate].
    exists 0%nat, s'. simpl. congruence.
  - destruct (re_match r (a :: s)) as [[s' c'] |] eqn:E.
    + exists 0%nat, s'. simpl. congruence.
    + destruct (IH H) as (i & s' & Hi). exists (S i), s'. exact Hi.
Qed.

(** ** Tokens *)

Lemma digits_n_spec (n : nat) (x : str) :
  digits_n n x = true <-> length x = n /\ forallb is_digit x = true.
Proof.
  unfold digits_n. rewrite andb_true_iff, Nat.eqb_eq. reflexivity.
Qed.

Lemma eat_digits_app (n : nat) (x rest : str) :
  digits_n n x = true -> eat_digits n (x ++ rest) = Some rest.
Proof.
  rewrite digits_n_spec. revert x.
  induction n as [| n IH]; intros x [Hl Hd].
  - destruct x; [reflexivity | discriminate].
  - destruct x as [| a x]; [discriminate |].
    simpl in *. apply andb_true_iff in Hd. destruct Hd as [Ha Hd].
    rewrite Ha. apply IH. split; [lia | exact Hd].
Qed.

Lemma eat_digits_inv (n : nat) (s rest : str) :
  eat_digits n s = Some rest ->
  exists x, s = x ++ rest /\ digits_n n x = true.
Proof.
  revert s. induction n as [| n IH]; intros s H; simpl in H.
  - injection H as <-. exists []. split; reflexivity.
  - destruct s as [| a s]; [discriminate |].
    destruct (is_digit a) eqn:Ha; [| discriminate].
    destruct (IH s H) as (x & -> & Hx).
    exists (a :: x). split; [reflexivity |].
    apply digits_n_spec in Hx. apply digits_n_spec. simpl.
    rewrite Ha. destruct Hx. split; [lia | assumption].
Qed.

Lemma skip_sep_app (x rest : str) (a : ascii) :
  opt_sep x = true -> is_digit a = true ->
  skip_sep (x ++ a :: rest) = a :: rest.
Proof.
  intros Hx Ha. destruct x as [| c [| c' x]]; simpl in *.
  - now rewrite (digit_not_sep a Ha).
  - now rewrite Hx.
  - discriminate.
Qed.

Lemma skip_sep_inv (s : str) :
  exists x, opt_sep x = true /\ s = x ++ skip_sep s.
Proof.
  destruct s as [| a s].
  - exists []. split; reflexivity.
  - simpl. destruct (is_sep a) eqn:E.
    + exists [a]. split; [exact E | reflexivity].
    + exists []. split; reflexivity.
Qed.

Lemma digits_n_head (n : nat) (x rest : str) :
  digits_n (S n) x = true ->
  exists a x', x ++ rest = a :: x' /\ is_digit a = true.
Proof.
  intro H. apply digits_n_spec in H. destruct H as [Hl Hd].
  destruct x as [| a x]; [discriminate |].
  simpl in Hd. apply andb_true_iff in Hd.
  exists a, (x ++ rest). split; [reflexivity | tauto].
Qed.

(** A token at the start of a text, in both directions. *)
Lemma fields_rest_app (n : nat) (a x1 b x2 c rest : str) :
  digits_n n a = true -> opt_sep x1 = true -> digits_n 2 b = true ->
  opt_sep x2 = true -> digits_n 2 c = true ->
  fields_rest n (a ++ x1 ++ b ++ x2 ++ c ++ rest) = Some rest.
Proof.
  intros Ha H1 Hb H2 Hc. unfold fields_rest.
  rewrite (eat_digits_app _ _ _ Ha).
  destruct (digits_n_head _ _ (x2 ++ c ++ rest) Hb) as (b0 & b' & Eb & Hb0).
  rewrite Eb, (skip_sep_app _ _ _ H1 Hb0), <- Eb, (eat_digits_app _ _ _ Hb).
  destruct (digits_n_head _ _ rest Hc) as (c0 & c' & Ec & Hc0).
  rewrite Ec, (skip_sep_app _ _ _ H2 Hc0), <- Ec.
  apply (eat_digits_app _ _ _ Hc).
Qed.

Lemma fields_rest_inv (n : nat) (s rest : str) :
  fields_rest n s = Some rest ->
  exists a x1 b x2 c,
    s = a ++ x1 ++ b ++ x2 ++ c ++ rest /\
    digits_n n a = true /\ opt_sep x1 = true /\ digits_n 2 b = true /\
    opt_sep x2 = true /\ digits_n 2 c = true.
Proof.
  unfold fields_rest. intro H.
  destruct (eat_digits n s) as [s1 |] eqn:E1; [| discriminate].
  destruct (eat_digits 2 (skip_sep s1)) as [s2 |] eqn:E2; [| discriminate].
  destruct (eat_digits_inv _ _ _ E1) as (a & -> & Ha).
  destruct (eat_digits_inv _ _ _ E2) as (b & Eb & Hb).
  destruct (eat_digits_inv _ _ _ H) as (c & Ec & Hc).
  destruct (skip_sep_inv s1) as (x1 & H1 & Es1).
  destruct (skip_sep_inv s2) as (x2 & H2 & Es2).
  exists a, x1, b, x2, c.
  repeat split; try assumption.
  rewrite Es1, Eb, Es2, Ec. reflexivity.
Qed.

Lemma strip_nondigits_digits (n : nat) (x : str) :
  digits_n n x = true -> strip_nondigits x = x.
Proof.
  intro H. apply digits_n_spec in H. destruct H as [_ H].
  unfold strip_nondigits. induction x as [| a x IH]; [reflexivity |].
  simpl in *. apply andb_true_iff in H. destruct H as [Ha H].
  rewrite Ha, (IH H). reflexivity.
Qed.

Lemma strip_nondigits_sep (x : str) :
  opt_sep x = true -> strip_nondigits x = [].
Proof.
  destruct x as [| c [| c' x]]; simpl; intro H;
    [reflexivity | | discriminate].
  now rewrite (sep_not_digit c H).
Qed.

(** Cleaning a token leaves the digits of its three fields. *)
Lemma strip_nondigits_token (n : nat) (a x1 b x2 c : str) :
  digits_n n a = true -> opt_sep x1 = true -> digits_n 2 b = true ->
  opt_sep x2 = true -> digits_n 2 c = true ->
  strip_nondigits (a ++ x1 ++ b ++ x2 ++ c) = a ++ b ++ c.
Proof.
  intros Ha H1 Hb H2 Hc. unfold strip_nondigits.
  rewrite !filter_app.
  fold (strip_nondigits a) (strip_nondigits x1) (strip_nondigits b)
       (strip_nondigits x2) (strip_nondigits c).
  rewrite (strip_nondigits_digits _ _ Ha), (strip_nondigits_digits _ _ Hb),
    (strip_nondigits_digits _ _ Hc), (strip_nondigits_sep _ H1),
    (strip_nondigits_sep _ H2).
  reflexivity.
Qed.

(** ** The pattern at one position *)

Lemma re_match_pattern (s : str) :
  re_match pattern s =
  match date_rest s with
  | None => None
  | Some rest =>
      let c1 := set_group 1 (taken s rest) no_caps in
      orelse (time_after c1 rest) (Some (rest, c1))
  end.
Proof.
  unfold re_match, pattern, date_rest.
  rewrite bt_cat, bt_grp. unfold date_re. rewrite bt_fields.
  destruct (fields_rest 4 s) as [rest |]; [| reflexivity].
  cbn [bt]. unfold time_after. cbv zeta. f_equal.
  apply star_ext. intro x. unfold time_re, time_rest.
  rewrite bt_fields. reflexivity.
Qed.

(** ** [strptime] on digits *)

(** A match of a pattern without repetition consumes at most [maxw]
    characters. *)
Lemma bt_bound {A} (r : regex) :
  star_free r = true ->
  forall (s : str) (c : caps) (k : str -> caps -> option A) (v : A),
    bt r s c k = Some v ->
    exists s' c', k s' c' = Some v /\ (length s <= length s' + maxw r)%nat.
Proof.
  induction r as [| p | r1 IH1 r2 IH2 | r1 IH1 r2 IH2 | r1 IH1 | p | n r1 IH1];
    simpl; intros Hsf s c k v H.
  - exists s, c. split; [exact H | lia].
  - destruct s as [| a s]; [discriminate |].
    destruct (p a); [| discriminate].
    exists s, c. split; [exact H | simpl; lia].
  - apply andb_true_iff in Hsf. destruct Hsf as [H1 H2].
    destruct (IH1 H1 _ _ _ _ H) as (s1 & c1 & Hk1 & L1).
    destruct (IH2 H2 _ _ _ _ Hk1) as (s2 & c2 & Hk2 & L2).
    exists s2, c2. split; [exact Hk2 | lia].
  - apply andb_true_iff in Hsf. destruct Hsf as [H1 H2].
    destruct (bt r1 s c k) as [u |] eqn:E; simpl in H.
    + rewrite <- H in *. destruct (IH1 H1 _ _ _ _ E) as (s1 & c1 & Hk & L).
      exists s1, c1. split; [exact Hk | lia].
    + destruct (IH2 H2 _ _ _ _ H) as (s1 & c1 & Hk & L).
      exists s1, c1. split; [exact Hk | lia].
  - destruct (bt r1 s c k) as [u |] eqn:E; simpl in H.
    + rewrite <- H in *. destruct (IH1 Hsf _ _ _ _ E) as (s1 & c1 & Hk & L).
      exists s1, c1. split; [exact Hk | lia].
    + exists s, c. split; [exact H | lia].
  - discriminate.
  - destruct (IH1 Hsf _ _ _ _ H) as (s1 & c1 & Hk & L).
    exists s1, (set_group n (taken s s1) c1). split; [exact Hk | lia].
Qed.

Ltac digit_cases a H :=
  apply is_digit_cases in H; simpl in H;
  repeat (destruct H as [H | H]; [subst a |]); [.. | contradiction].

(** A directive other than [%Y] on two digits: both digits when it accepts
    them, and else, or when the rest fails after them, the first digit
    alone. *)
Lemma bt_directive_digits {A} (x : directive) (a b : ascii) (s : str)
  (c : caps) (k : str -> caps -> option A) :
  x <> dir_Y -> is_digit a = true -> is_digit b = true ->
  bt (directive_re x) (a :: b :: s) c k =
  orelse (if two x a b then k s (set_group (gid x) [a; b] c) else None)
         (if one x a then k (b :: s) (set_group (gid x) [a] c) else None).
Proof.
  intros Hx Ha Hb. unfold directive_re. rewrite bt_grp.
  destruct x; [congruence | ..];
    digit_cases a Ha; digit_cases b Hb;
    cbn; rewrite ?taken_1, ?taken_2;
    repeat match goal with
           | |- context [k ?u ?w] => destruct (k u w)
           end; reflexivity.
Qed.

Lemma maxw_directive (x : directive) : x <> dir_Y -> maxw (directive_re x) = 2%nat.
Proof. destruct x; [congruence | ..]; reflexivity. Qed.

Lemma star_free_format (ds : list directive) : star_free (format_regex ds) = true.
Proof.
  induction ds as [| x ds IH]; [reflexivity |].
  simpl. rewrite IH. destruct x; reflexivity.
Qed.

Lemma maxw_format (ds : list directive) :
  ~ In dir_Y ds -> (maxw (format_regex ds) <= 2 * length ds)%nat.
Proof.
  induction ds as [| x ds IH]; intro H; [simpl; lia |].
  change (maxw (format_regex (x :: ds)))
    with (maxw (directive_re x) + maxw (format_regex ds))%nat.
  rewrite maxw_directive by (intro E; apply H; left; congruence).
  assert (maxw (format_regex ds) <= 2 * length ds)%nat
    by (apply IH; intro E; apply H; right; exact E).
  simpl length. lia.
Qed.

(** What a format without [%Y] leaves of a text: each directive takes two
    characters at most. *)
Lemma format_rest_bound (ds : list directive) (s rest : str) (c found : caps) :
  ~ In dir_Y ds ->
  bt (format_regex ds) s c (fun s' c' => Some (s', c')) = Some (rest, found) ->
  (length s <= length rest + 2 * length ds)%nat.
Proof.
  intros Hds H.
  destruct (bt_bound (format_regex ds) (star_free_format ds) _ _ _ _ H)
    as (s' & c' & E & L).
  injection E as -> _. pose proof (maxw_format ds Hds). lia.
Qed.

(** When every directive accepts its two digits, that is the match found. *)
Lemma format_all_two (ds : list directive) :
  ~ In dir_Y ds ->
  forall (s : str) (c : caps),
    forallb is_digit s = true -> all_two ds s = true ->
    bt (format_regex ds) s c (fun s' c' => Some (s', c'))
    = Some ([], caps_two ds s c).
Proof.
  induction ds as [| x ds IH]; intros Hds s c Hs H2.
  - destruct s; [reflexivity | discriminate].
  - destruct s as [| a [| b s]]; try discriminate.
    simpl in Hs, H2.
    apply andb_true_iff in Hs. destruct Hs as [Ha Hs].
    apply andb_true_iff in Hs. destruct Hs as [Hb Hs].
    apply andb_true_iff in H2. destruct H2 as [Hx H2].
    change (format_regex (x :: ds))
      with (Cat (directive_re x) (format_regex ds)).
    rewrite bt_cat, bt_directive_digits
      by (try assumption; intro E; apply Hds; left; congruence).
    rewrite Hx, IH by (try assumption; intro E; apply Hds; right; exact E).
    reflexivity.
Qed.

(** Otherwise no match consumes the whole text. *)
Lemma format_not_all_two (ds : list directive) :
  ~ In dir_Y ds ->
  forall (s : str) (c found : caps),
    forallb is_digit s = true -> length s = (2 * length ds)%nat ->
    all_two ds s = false ->
    bt (format_regex ds) s c (fun s' c' => Some (s', c')) <> Some ([], found).
Proof.
  induction ds as [| x ds IH]; intros Hds s c found Hs Hl H2.
  - destruct s; discriminate.
  - destruct s as [| a [| b s]]; try (simpl in Hl; lia).
    assert (Hds' : ~ In dir_Y ds) by (intro E; apply Hds; right; exact E).
    simpl in Hs, H2, Hl.
    apply andb_true_iff in Hs. destruct Hs as [Ha Hs].
    apply andb_true_iff in Hs. destruct Hs as [Hb Hs].
    change (format_regex (x :: ds))
      with (Cat (directive_re x) (format_regex ds)).
    rewrite bt_cat, bt_directive_digits
      by (try assumption; intro E; apply Hds; left; congruence).
    intro H.
    destruct (two x a b) eqn:Hx.
    + simpl in H2.
      destruct (bt (format_regex ds) s (set_group (gid x) [a; b] c)
                   (fun s' c' => Some (s', c'))) as [v |] eqn:E.
      * simpl in H. rewrite H in E.
        apply (IH Hds' s _ found Hs ltac:(lia) H2 E).
      * simpl in H. destruct (one x a); [| discriminate].
        apply format_rest_bound in H; [simpl in H; lia | exact Hds'].
    + simpl in H. destruct (one x a); [| discriminate].
      apply format_rest_bound in H; [simpl in H; lia | exact Hds'].
Qed.

Lemma bt_year {A} (ys s : str) (c : caps) (k : str -> caps -> option A) :
  digits_n 4 ys = true ->
  bt (directive_re dir_Y) (ys ++ s) c k = k s (set_group 1 ys c).
Proof.
  intro H. apply digits_n_spec in H. destruct H as [Hl Hd].
  destruct ys as [| y1 [| y2 [| y3 [| y4 [| ? ?]]]]]; try discriminate.
  simpl in Hd. repeat (apply andb_true_iff in Hd; destruct Hd as [? Hd]).
  unfold directive_re. rewrite bt_grp. simpl.
  repeat match goal with E : is_digit _ = true |- _ => rewrite E; clear E end.
  rewrite taken_4. reflexivity.
Qed.

(** [strptime] with a format that starts with [%Y], on a text of digits that
    has two of them for each of the other directives. *)
Lemma strptime_year_first (fmt : str) (ds : list directive) (ys s : str) :
  parse_format fmt = Some (dir_Y :: ds) -> ~ In dir_Y ds ->
  digits_n 4 ys = true -> forallb is_digit s = true ->
  length s = (2 * length ds)%nat ->
  strptime (ys ++ s) fmt =
  if all_two ds s then
    let found := caps_two ds s (set_group 1 ys no_caps) in
    datetime_new (field found dir_Y 1900) (field found dir_m 1)
                 (field found dir_d 1) (field found dir_H 0)
                 (field found dir_M 0) (field found dir_S 0)
  else None.
Proof.
  intros Hf Hds Hys Hs Hl. unfold strptime, re_match. rewrite Hf.
  change (format_regex (dir_Y :: ds))
    with (Cat (directive_re dir_Y) (format_regex ds)).
  rewrite bt_cat, bt_year by exact Hys.
  destruct (all_two ds s) eqn:E.
  - rewrite format_all_two by assumption. reflexivity.
  - pose proof (format_not_all_two ds Hds s (set_group 1 ys no_caps)) as N.
    destruct (bt (format_regex ds) s (set_group 1 ys no_caps)
                 (fun s' c' => Some (s', c'))) as [[[| ? ?] found] |];
      try reflexivity.
    exfalso. exact (N found Hs Hl E eq_refl).
Qed.

Lemma py_int_2 (a b : ascii) :
  is_digit a = true -> is_digit b = true -> py_int [a; b] = num2 a b.
Proof.
  intros Ha Hb. unfold py_int, num2. simpl. rewrite Ha, Hb. lia.
Qed.

Lemma days_in_month_le (y m : Z) : (days_in_month y m <= 31)%Z.
Proof.
  unfold days_in_month.
  destruct (m =? 2)%Z; [destruct (is_leap y); lia |].
  destruct ((m =? 4) || (m =? 6) || (m =? 9) || (m =? 11))%Z; lia.
Qed.

Lemma valid_date_spec (y m dd : Z) :
  valid_date y m dd = true <->
  (1 <= y <= 9999 /\ 1 <= m <= 12 /\ 1 <= dd <= days_in_month y m)%Z.
Proof.
  unfold valid_date. rewrite !andb_true_iff, !Z.leb_le. tauto.
Qed.

Lemma valid_time_spec (h mi s : Z) :
  valid_time h mi s = true <->
  (0 <= h <= 23 /\ 0 <= mi <= 59 /\ 0 <= s <= 59)%Z.
Proof.
  unfold valid_time. rewrite !andb_true_iff, !Z.leb_le. tauto.
Qed.

Lemma datetime_new_none_date (y m dd h mi s : Z) :
  ~ (1 <= m <= 12 /\ 1 <= dd <= 31)%Z -> datetime_new y m dd h mi s = None.
Proof.
  intro H. unfold datetime_new.
  destruct (valid_date y m dd) eqn:E; [| reflexivity].
  apply valid_date_spec in E. pose proof (days_in_month_le y m). lia.
Qed.

Lemma datetime_new_none_time (y m dd h mi s : Z) :
  ~ (h <= 23 /\ mi <= 59 /\ s <= 61)%Z -> datetime_new y m dd h mi s = None.
Proof.
  intro H. unfold datetime_new.
  destruct (valid_time h mi s) eqn:E; [| now rewrite andb_false_r].
  apply valid_time_spec in E. lia.
Qed.

Ltac two_digits x a b H :=
  let Hl := fresh "Hl" in
  let Hd := fresh "Hd" in
  apply digits_n_spec in H; destruct H as [Hl Hd];
  destruct x as [| a [| b [| ? ?]]]; try discriminate Hl; clear Hl;
  simpl in Hd;
  apply andb_true_iff in Hd; destruct Hd as [? Hd];
  apply andb_true_iff in Hd; destruct Hd as [? _].

(** [strptime(s, "%Y%m%d")] on eight digits is the constructor on the three
    numbers they write. *)
Lemma strptime_Ymd (ys ms ds : str) :
  digits_n 4 ys = true -> digits_n 2 ms = true -> digits_n 2 ds = true ->
  strptime (ys ++ ms ++ ds) (py "%Y%m%d")
  = datetime_new (py_int ys) (py_int ms) (py_int ds) 0 0 0.
Proof.
  intros Hy Hm Hd.
  two_digits ms m1 m2 Hm. two_digits ds d1 d2 Hd.
  rewrite (strptime_year_first _ [dir_m; dir_d]);
    [ | reflexivity | simpl; intuition discriminate | exact Hy
      | simpl;
        repeat match goal with E : is_digit _ = true |- _ => rewrite E; clear E end;
        reflexivity
      | reflexivity ].
  rewrite !py_int_2 by assumption.
  cbn [all_two app].
  destruct (two dir_m m1 m2) eqn:Em; [destruct (two dir_d d1 d2) eqn:Ed |];
    cbn [andb].
  - cbv [caps_two field set_group gid Nat.eqb no_caps].
    rewrite !py_int_2 by assumption. reflexivity.
  - symmetry. apply datetime_new_none_date.
    cbv [two] in Ed. apply andb_false_iff in Ed. rewrite !Z.leb_gt in Ed. lia.
  - symmetry. apply datetime_new_none_date.
    cbv [two] in Em. apply andb_false_iff in Em. rewrite !Z.leb_gt in Em. lia.
Qed.

(** [strptime(s, "%Y%m%d%H%M%S")] on fourteen digits, likewise. *)
Lemma strptime_YmdHMS (ys ms ds hs ns ss : str) :
  digits_n 4 ys = true -> digits_n 2 ms = true -> digits_n 2 ds = true ->
  digits_n 2 hs = true -> digits_n 2 ns = true -> digits_n 2 ss = true ->
  strptime (ys ++ ms ++ ds ++ hs ++ ns ++ ss) (py "%Y%m%d%H%M%S")
  = datetime_new (py_int ys) (py_int ms) (py_int ds)
                 (py_int hs) (py_int ns) (py_int ss).
Proof.
  intros Hy Hm Hd Hh Hn Hs.
  two_digits ms m1 m2 Hm. two_digits ds d1 d2 Hd.
  two_digits hs h1 h2 Hh. two_digits ns n1 n2 Hn. two_digits ss s1 s2 Hs.
  rewrite (strptime_year_first _ [dir_m; dir_d; dir_H; dir_M; dir_S]);
    [ | reflexivity | simpl; intuition discriminate | exact Hy
      | simpl;
        repeat match goal with E : is_digit _ = true |- _ => rewrite E; clear E end;
        reflexivity
      | reflexivity ].
  rewrite !py_int_2 by assumption.
  cbn [all_two app].
  destruct (two dir_m m1 m2) eqn:Em; cbn [andb];
    [| symmetry; apply datetime_new_none_date;
       cbv [two] in Em; apply andb_false_iff in Em;
       rewrite !Z.leb_gt in Em; lia].
  destruct (two dir_d d1 d2) eqn:Ed; cbn [andb];
    [| symmetry; apply datetime_new_none_date;
       cbv [two] in Ed; apply andb_false_iff in Ed;
       rewrite !Z.leb_gt in Ed; lia].
  destruct (two dir_H h1 h2) eqn:Eh; cbn [andb];
    [| symmetry; apply datetime_new_none_time;
       cbv [two] in Eh; rewrite Z.leb_gt in Eh; lia].
  destruct (two dir_M n1 n2) eqn:En; cbn [andb];
    [| symmetry; apply datetime_new_none_time;
       cbv [two] in En; rewrite Z.leb_gt in En; lia].
  destruct (two dir_S s1 s2) eqn:Es; cbn [andb];
    [| symmetry; apply datetime_new_none_time;
       cbv [two] in Es; rewrite Z.leb_gt in Es; lia].
  cbv [caps_two field set_group gid Nat.eqb no_caps].
  rewrite !py_int_2 by assumption. reflexivity.
Qed.

Lemma digits_n_length (n : nat) (x : str) : digits_n n x = true -> length x = n.
Proof. intro H. apply digits_n_spec in H. tauto. Qed.

(** A cleaned time token has six digits already: padding adds nothing. *)
Lemma ljust_time (hs ns ss : str) :
  digits_n 2 hs = true -> digits_n 2 ns = true -> digits_n 2 ss = true ->
  ljust (hs ++ ns ++ ss) 6 "0" = hs ++ ns ++ ss.
Proof.
  intros Hh Hn Hs. unfold ljust. rewrite !length_app.
  rewrite (digits_n_length _ _ Hh), (digits_n_length _ _ Hn),
    (digits_n_length _ _ Hs).
  simpl. apply app_nil_r.
Qed.

(** ** What [re.search] finds with the pattern *)

Lemma token_app (n : nat) (a x1 b x2 c : str) :
  digits_n n a = true -> opt_sep x1 = true -> digits_n 2 b = true ->
  opt_sep x2 = true -> digits_n 2 c = true ->
  token n (a ++ x1 ++ b ++ x2 ++ c) a b c.
Proof. intros. exists x1, x2. tauto. Qed.

Lemma token_clean (n : nat) (t a b c : str) :
  token n t a b c -> strip_nondigits t = a ++ b ++ c.
Proof.
  intros (x1 & x2 & -> & Ha & H1 & Hb & H2 & Hc).
  now apply strip_nondigits_token with (n := n).
Qed.

Lemma token_truthy (n : nat) (t a b c : str) :
  token n t a b c -> truthy (Some t) = true.
Proof.
  intros (x1 & x2 & -> & _ & _ & _ & _ & Hc).
  apply digits_n_spec in Hc. destruct Hc as [Hl _].
  destruct a, x1, b, x2, c; try discriminate Hl; reflexivity.
Qed.

Lemma token_rest (n : nat) (t a b c rest : str) :
  token n t a b c -> fields_rest n (t ++ rest) = Some rest.
Proof.
  intros (x1 & x2 & -> & Ha & H1 & Hb & H2 & Hc).
  rewrite <- !app_assoc. now apply fields_rest_app.
Qed.

Lemma rest_token (n : nat) (s rest : str) :
  fields_rest n s = Some rest ->
  exists t a b c, s = t ++ rest /\ token n t a b c.
Proof.
  intro H.
  destruct (fields_rest_inv _ _ _ H) as (a & x1 & b & x2 & c & -> & Hs).
  exists (a ++ x1 ++ b ++ x2 ++ c), a, b, c.
  split; [now rewrite <- !app_assoc | now apply token_app].
Qed.

(** The match at a position that starts with a date token: the groups when
    no time token can be reached, ... *)
Lemma re_match_date_only (tok ys ms ds post : str) :
  token 4 tok ys ms ds ->
  (forall i, time_rest (skipn i post) = None) ->
  re_match pattern (tok ++ post) = Some (post, set_group 1 tok no_caps).
Proof.
  intros Ht Hno. rewrite re_match_pattern. unfold date_rest.
  rewrite (token_rest _ _ _ _ _ post Ht). cbv zeta. rewrite taken_app.
  unfold time_after. rewrite star_none; [reflexivity |].
  intro i. now rewrite Hno.
Qed.

(** ... and when the last time token within reach is [ttok]. *)
Lemma re_match_date_time (tok ys ms ds gap ttok hs ns ss post : str) :
  token 4 tok ys ms ds ->
  forallb not_newline gap = true ->
  token 2 ttok hs ns ss ->
  (forall i, (0 < i)%nat -> time_rest (skipn i (ttok ++ post)) = None) ->
  re_match pattern (tok ++ gap ++ ttok ++ post)
  = Some (post, set_group 2 ttok (set_group 1 tok no_caps)).
Proof.
  intros Ht Hgap Htt Hlast. rewrite re_match_pattern. unfold date_rest.
  rewrite (token_rest _ _ _ _ _ (gap ++ ttok ++ post) Ht). cbv zeta.
  rewrite taken_app. unfold time_after.
  erewrite star_last; [reflexivity | exact Hgap | |].
  - unfold time_rest. rewrite (token_rest _ _ _ _ _ post Htt).
    now rewrite taken_app.
  - intros i Hi. now rewrite (Hlast i Hi).
Qed.

Lemma re_match_no_date (s : str) :
  date_rest s = None -> re_match pattern s = None.
Proof. intro H. now rewrite re_match_pattern, H. Qed.

Lemma re_search_leftmost (pre x x' : str) (c : caps) :
  (forall i, (i < length pre)%nat -> date_rest (skipn i (pre ++ x)) = None) ->
  re_match pattern x = Some (x', c) ->
  re_search pattern (pre ++ x) = Some c.
Proof.
  intros Hpre Hx. rewrite re_search_skip.
  - exact (re_search_here _ _ _ _ Hx).
  - intros i Hi. apply re_match_no_date, Hpre, Hi.
Qed.

(** Whatever the text, the groups of a match are a date token and, when
    there is one, a time token. *)
Lemma re_search_pattern_inv (s : str) (m : caps) :
  re_search pattern s = Some m ->
  exists tok ys ms ds,
    m 1%nat = Some tok /\ token 4 tok ys ms ds /\
    (m 2%nat = None \/
     exists ttok hs ns ss, m 2%nat = Some ttok /\ token 2 ttok hs ns ss).
Proof.
  intro H. destruct (re_search_inv _ _ _ H) as (i & s' & Hm).
  rewrite re_match_pattern in Hm.
  destruct (date_rest (skipn i s)) as [rest |] eqn:Ed; [| discriminate].
  destruct (rest_token _ _ _ Ed) as (tok & ys & ms & ds & Es & Ht).
  cbv zeta in Hm. rewrite Es, taken_app in Hm.
  exists tok, ys, ms, ds.
  destruct (time_after (set_group 1 tok no_caps) rest) as [v |] eqn:Et;
    simpl in Hm.
  - injection Hm as ->. unfold time_after in Et.
    apply star_inv in Et. destruct Et as (j & Hj).
    destruct (time_rest (skipn j rest)) as [r |] eqn:Er; [| discriminate].
    destruct (rest_token _ _ _ Er) as (ttok & hs & ns & ss & Ej & Htt).
    rewrite Ej, taken_app in Hj. injection Hj as _ <-.
    repeat split; try assumption.
    right. exists ttok, hs, ns, ss. split; [reflexivity | assumption].
  - injection Hm as _ <-. repeat split; try assumption. now left.
Qed.

(** ** [extract_datetime_from_filename] on the groups of the match *)

Lemma extract_date_only (filename : str) (m : caps) (tok ys ms ds : str) :
  re_search pattern filename = Some m ->
  m 1%nat = Some tok -> token 4 tok ys ms ds -> m 2%nat = None ->
  extract_datetime_from_filename filename
  = datetime_new (py_int ys) (py_int ms) (py_int ds) 0 0 0.
Proof.
  intros Hs H1 Ht H2. unfold extract_datetime_from_filename.
  rewrite Hs, H1, H2, (token_clean _ _ _ _ _ Ht).
  destruct Ht as (x1 & x2 & _ & Hy & _ & Hm & _ & Hd).
  now apply strptime_Ymd.
Qed.

Lemma extract_date_time (filename : str) (m : caps)
  (tok ys ms ds ttok hs ns ss : str) :
  re_search pattern filename = Some m ->
  m 1%nat = Some tok -> token 4 tok ys ms ds ->
  m 2%nat = Some ttok -> token 2 ttok hs ns ss ->
  extract_datetime_from_filename filename
  = orelse (datetime_new (py_int ys) (py_int ms) (py_int ds)
                         (py_int hs) (py_int ns) (py_int ss))
           (datetime_new (py_int ys) (py_int ms) (py_int ds) 0 0 0).
Proof.
  intros Hs H1 Ht H2 Htt. unfold extract_datetime_from_filename.
  rewrite Hs, H1, H2, (token_truthy _ _ _ _ _ Htt),
    (token_clean _ _ _ _ _ Ht), (token_clean _ _ _ _ _ Htt).
  destruct Ht as (x1 & x2 & _ & Hy & _ & Hm & _ & Hd).
  destruct Htt as (y1 & y2 & _ & Hh & _ & Hn & _ & Hss).
  rewrite (ljust_time _ _ _ Hh Hn Hss), <- !app_assoc.
  rewrite strptime_YmdHMS, strptime_Ymd by assumption.
  reflexivity.
Qed.

Ltac explode x H :=
  apply digits_n_length in H;
  repeat (destruct x as [| ? x]; try discriminate H).

(** The numbers of the cleaned date token and of the combined text. *)
Lemma fields_of_digits (ys ms ds rest : str) :
  digits_n 4 ys = true -> digits_n 2 ms = true -> digits_n 2 ds = true ->
  year_of (ys ++ ms ++ ds ++ rest) = py_int ys /\
  month_of (ys ++ ms ++ ds ++ rest) = py_int ms /\
  day_of (ys ++ ms ++ ds ++ rest) = py_int ds.
Proof.
  intros Hy Hm Hd. explode ys Hy. explode ms Hm. explode ds Hd.
  repeat split; reflexivity.
Qed.

Lemma time_of_digits (ys ms ds hs ns ss : str) :
  digits_n 4 ys = true -> digits_n 2 ms = true -> digits_n 2 ds = true ->
  digits_n 2 hs = true -> digits_n 2 ns = true -> digits_n 2 ss = true ->
  hour_of (ys ++ ms ++ ds ++ hs ++ ns ++ ss) = py_int hs /\
  minute_of (ys ++ ms ++ ds ++ hs ++ ns ++ ss) = py_int ns /\
  second_of (ys ++ ms ++ ds ++ hs ++ ns ++ ss) = py_int ss.
Proof.
  intros Hy Hm Hd Hh Hn Hs.
  explode ys Hy. explode ms Hm. explode ds Hd.
  explode hs Hh. explode ns Hn. explode ss Hs.
  repeat split; reflexivity.
Qed.

(** ** The properties of the extractor *)

(** C1, as the specification states it, does not hold: a filename can
    contain a valid date with no time token after it and still give nothing,
    because an earlier run of digits is taken as the date token.  In
    ["12345678_20230415.jpg"] the search stops at ["12345678"], month 56. *)
Lemma contained_date_not_extracted :
  ~ (forall pre tok post ys ms ds : str,
       token 4 tok ys ms ds ->
       (forall i, time_rest (skipn i post) = None) ->
       valid_date (py_int ys) (py_int ms) (py_int ds) = true ->
       extract_datetime_from_filename (pre ++ tok ++ post)
       = Some (mk_datetime (py_int ys) (py_int ms) (py_int ds) 0 0 0)).
Proof.
  intro H.
  specialize (H (py "12345678_") (py "20230415") (py ".jpg")
                (py "2023") (py "04") (py "15")).
  assert (E : extract_datetime_from_filename
                (py "12345678_" ++ py "20230415" ++ py ".jpg") = None)
    by reflexivity.
  rewrite E in H. discriminate H.
  - exists [], []. repeat split; reflexivity.
  - intro i. do 4 (destruct i as [| i]; [reflexivity |]).
    destruct i; reflexivity.
  - reflexivity.
Qed.

(** C1, amended: for every filename whose leftmost date token (four digits,
    two digits, two digits, with [-], [.] or [_] between them or nothing)
    writes a date of the calendar, years 1 to 9999, and with no time token
    in the text after it, [extract_datetime_from_filename] returns that date
    at midnight. *)
Theorem leftmost_date_at_midnight (pre tok post ys ms ds : str) :
  token 4 tok ys ms ds ->
  (forall i, (i < length pre)%nat ->
             date_rest (skipn i (pre ++ tok ++ post)) = None) ->
  (forall i, time_rest (skipn i post) = None) ->
  valid_date (py_int ys) (py_int ms) (py_int ds) = true ->
  extract_datetime_from_filename (pre ++ tok ++ post)
  = Some (mk_datetime (py_int ys) (py_int ms) (py_int ds) 0 0 0).
Proof.
  intros Ht Hleft Hno Hv.
  pose proof (re_match_date_only _ _ _ _ post Ht Hno) as Hm.
  pose proof (re_search_leftmost pre _ _ _ Hleft Hm) as Hs.
  rewrite (extract_date_only _ _ tok ys ms ds Hs eq_refl Ht eq_refl).
  unfold datetime_new. now rewrite Hv.
Qed.

Lemma leftmost_date_at_midnight_witness :
  extract_datetime_from_filename (py "IMG_2023-04-15_photo.jpg")
  = Some (mk_datetime 2023 4 15 0 0 0).
Proof.
  apply (leftmost_date_at_midnight
           (py "IMG_") (py "2023-04-15") (py "_photo.jpg")
           (py "2023") (py "04") (py "15")).
  - exists (py "-"), (py "-"). repeat split; reflexivity.
  - intros i Hi. do 4 (destruct i as [| i]; [reflexivity |]).
    simpl in Hi. lia.
  - intro i. do 10 (destruct i as [| i]; [reflexivity |]).
    destruct i; reflexivity.
  - reflexivity.
Defined.

(** C2, as the specification states it, does not hold: the separator is not
    any character that is not a digit.  With [/] between the fields no date
    token is found at all. *)
Lemma slash_is_not_a_separator :
  ~ (forall (pre post ys ms ds : str) (c : ascii),
       digits_n 4 ys = true -> digits_n 2 ms = true -> digits_n 2 ds = true ->
       is_digit c = false ->
       valid_date (py_int ys) (py_int ms) (py_int ds) = true ->
       re_search pattern (pre ++ ys ++ c :: ms ++ c :: ds ++ post) <> None).
Proof.
  intro H.
  apply (H [] (py ".jpg") (py "2023") (py "04") (py "15") "/");
    reflexivity.
Qed.

(** C2, amended: the date-token search accepts only [-], [.] or [_] as the
    optional single separator between the 4-digit year, the 2-digit month
    and the 2-digit day.  For every filename whose leftmost date token is a
    year-month-day triple with such separators or none, the search finds
    that token as group 1; and where the fields are separated by characters
    that are not digits and not all among the three, no date token starts. *)
Theorem date_token_separators :
  (forall c : ascii, is_sep c = true <-> In c ["-"; "."; "_"]) /\
  (forall pre tok post ys ms ds : str,
     token 4 tok ys ms ds ->
     (forall i, (i < length pre)%nat ->
                date_rest (skipn i (pre ++ tok ++ post)) = None) ->
     exists m, re_search pattern (pre ++ tok ++ post) = Some m /\
               m 1%nat = Some tok) /\
  (forall (ys ms ds post : str) (c1 c2 : ascii),
     digits_n 4 ys = true -> digits_n 2 ms = true -> digits_n 2 ds = true ->
     is_digit c1 = false -> is_digit c2 = false ->
     ~ (In c1 ["-"; "."; "_"] /\ In c2 ["-"; "."; "_"]) ->
     re_match pattern (ys ++ c1 :: ms ++ c2 :: ds ++ post) = None).
Proof.
  assert (Hsep : forall c : ascii, is_sep c = true <-> In c ["-"; "."; "_"]).
  { intro c. unfold is_sep, is_char. rewrite !orb_true_iff, !Ascii.eqb_eq.
    simpl. tauto. }
  split; [exact Hsep | split].
  - intros pre tok post ys ms ds Ht Hleft.
    assert (Hm : exists x' c, re_match pattern (tok ++ post) = Some (x', c)
                              /\ c 1%nat = Some tok).
    { rewrite re_match_pattern. unfold date_rest.
      rewrite (token_rest _ _ _ _ _ post Ht). cbv zeta. rewrite taken_app.
      destruct (time_after (set_group 1 tok no_caps) post)
        as [[r c] |] eqn:E; simpl.
      - exists r, c. split; [reflexivity |].
        unfold time_after in E. apply star_inv in E. destruct E as (j & E).
        destruct (time_rest (skipn j post)); [| discriminate].
        injection E as _ <-. reflexivity.
      - exists post, (set_group 1 tok no_caps). split; reflexivity. }
    destruct Hm as (x' & c & Hm & H1).
    exists c. split; [| exact H1].
    exact (re_search_leftmost pre _ _ _ Hleft Hm).
  - intros ys ms ds post c1 c2 Hy Hm Hd H1 H2 Hc.
    apply re_match_no_date. unfold date_rest, fields_rest.
    rewrite (eat_digits_app _ _ _ Hy).
    destruct (is_sep c1) eqn:E1.
    + simpl skip_sep. rewrite E1.
      change (c2 :: ds ++ post) with ([c2] ++ ds ++ post).
      rewrite (eat_digits_app _ _ _ Hm).
      destruct (is_sep c2) eqn:E2.
      * exfalso. apply Hc. split; now apply Hsep.
      * simpl. now rewrite E2, H2.
    + simpl. now rewrite E1, H1.
Qed.

Lemma date_token_separators_witness :
  (exists m, re_search pattern (py "IMG_2023.04.15.jpg") = Some m /\
             m 1%nat = Some (py "2023.04.15")) /\
  re_match pattern (py "2023/04/15.jpg") = None.
Proof.
  split.
  - apply (proj1 (proj2 date_token_separators)
             (py "IMG_") (py "2023.04.15") (py ".jpg")
             (py "2023") (py "04") (py "15")).
    + exists (py "."), (py "."). repeat split; reflexivity.
    + intros i Hi. do 4 (destruct i as [| i]; [reflexivity |]).
      simpl in Hi. lia.
  - apply (proj2 (proj2 date_token_separators)
             (py "2023") (py "04") (py "15") (py ".jpg") "/" "/");
      try reflexivity.
    intros [H _]. simpl in H.
    repeat (destruct H as [H | H]; [discriminate H |]). exact H.
Defined.

(** C3, as the specification states it, does not hold: an hour alone is not
    a time token, so nothing is captured and nothing is padded.
    ["2023-04-15 14.jpg"] gives midnight, not 14:00:00. *)
Lemma hour_only_is_not_captured :
  extract_datetime_from_filename (py "2023-04-15 14.jpg")
  = Some (mk_datetime 2023 4 15 0 0 0) /\
  extract_datetime_from_filename (py "2023-04-15 14.jpg")
  <> Some (mk_datetime 2023 4 15 14 0 0).
Proof. split; [reflexivity | discriminate]. Qed.

(** C3, amended: a time token is captured only in its full shape, two
    digits three times with [-], [.] or [_] between them or nothing, so the
    cleaned time always has exactly 6 digits and padding it on the right to
    6 digits adds nothing.  For every filename whose leftmost date token
    writes a date of the calendar and is followed on the same line by such
    a time token, the last one that can be reached, writing a time of the
    day, the extractor returns that date with that time.  A run of fewer
    than 6 digits is not a time token: ["2023-04-15 14.jpg"] yields
    2023-04-15 00:00:00. *)
Theorem time_token_has_six_digits :
  (forall (filename : str) (m : caps) (ttok : str),
     re_search pattern filename = Some m -> m 2%nat = Some ttok ->
     length (strip_nondigits ttok) = 6%nat /\
     ljust (strip_nondigits ttok) 6 "0" = strip_nondigits ttok) /\
  (forall pre tok gap ttok post ys ms ds hs ns ss : str,
     token 4 tok ys ms ds ->
     (forall i, (i < length pre)%nat ->
                date_rest (skipn i (pre ++ tok ++ gap ++ ttok ++ post)) = None) ->
     forallb not_newline gap = true ->
     token 2 ttok hs ns ss ->
     (forall i, (0 < i)%nat -> time_rest (skipn i (ttok ++ post)) = None) ->
     valid_date (py_int ys) (py_int ms) (py_int ds) = true ->
     valid_time (py_int hs) (py_int ns) (py_int ss) = true ->
     extract_datetime_from_filename (pre ++ tok ++ gap ++ ttok ++ post)
     = Some (mk_datetime (py_int ys) (py_int ms) (py_int ds)
                         (py_int hs) (py_int ns) (py_int ss))) /\
  extract_datetime_from_filename (py "2023-04-15 14.jpg")
  = Some (mk_datetime 2023 4 15 0 0 0).
Proof.
  split; [| split; [| reflexivity]].
  - intros filename m ttok Hs H2.
    destruct (re_search_pattern_inv _ _ Hs)
      as (tok & ys & ms & ds & _ & _ & [Hn | (t & hs & ns & ss & Et & Ht)]);
      [congruence |].
    assert (t = ttok) by congruence. subst t.
    rewrite (token_clean _ _ _ _ _ Ht).
    destruct Ht as (x1 & x2 & _ & Hh & _ & Hn & _ & Hss).
    split; [| now apply ljust_time].
    rewrite !length_app, (digits_n_length _ _ Hh), (digits_n_length _ _ Hn),
      (digits_n_length _ _ Hss). reflexivity.
  - intros pre tok gap ttok post ys ms ds hs ns ss
           Ht Hleft Hgap Htt Hlast Hvd Hvt.
    pose proof (re_match_date_time _ _ _ _ _ _ _ _ _ post Ht Hgap Htt Hlast)
      as Hm.
    pose proof (re_search_leftmost pre _ _ _ Hleft Hm) as Hs.
    rewrite (extract_date_time _ _ tok ys ms ds ttok hs ns ss
               Hs eq_refl Ht eq_refl Htt).
    unfold datetime_new. now rewrite Hvd, Hvt.
Qed.

Lemma time_token_has_six_digits_witness :
  extract_datetime_from_filename (py "IMG_2023-04-15 14.30.05.jpg")
  = Some (mk_datetime 2023 4 15 14 30 5).
Proof.
  apply (proj1 (proj2 time_token_has_six_digits)
           (py "IMG_") (py "2023-04-15") (py " ") (py "14.30.05") (py ".jpg")
           (py "2023") (py "04") (py "15") (py "14") (py "30") (py "05")).
  - exists (py "-"), (py "-"). repeat split; reflexivity.
  - intros i Hi. do 4 (destruct i as [| i]; [reflexivity |]).
    simpl in Hi. lia.
  - reflexivity.
  - exists (py "."), (py "."). repeat split; reflexivity.
  - intros i Hi. destruct i as [| i]; [lia |].
    do 11 (destruct i as [| i]; [reflexivity |]).
    destruct i; reflexivity.
  - reflexivity.
  - reflexivity.
Defined.

(** C4: extraction degrades in two stages.  When a date token and a time
    token are both found and the combined 14 digits do not write a date and
    a time, the 8 digits of the date are parsed alone and give that date at
    midnight; and when the 8 digits of the date do not write a date of the
    calendar, as in ["20231399.jpg"], the extractor returns [None]. *)
Theorem extraction_degrades_in_two_stages
  (filename : str) (m : caps) (date_str : str) :
  re_search pattern filename = Some m ->
  m 1%nat = Some date_str ->
  let cleaned_date_str := strip_nondigits date_str in
  (forall time_str : str,
     m 2%nat = Some time_str ->
     let datetime_str :=
       cleaned_date_str ++ ljust (strip_nondigits time_str) 6 "0" in
     writes_date datetime_str && writes_time datetime_str = false ->
     extract_datetime_from_filename filename
     = if writes_date cleaned_date_str
       then Some (midnight_of cleaned_date_str)
       else None) /\
  (writes_date cleaned_date_str = false ->
   extract_datetime_from_filename filename = None) /\
  extract_datetime_from_filename (py "20231399.jpg") = None.
Proof.
  intros Hs H1 cleaned.
  destruct (re_search_pattern_inv _ _ Hs)
    as (tok & ys & ms & ds & E1 & Ht & H2).
  assert (tok = date_str) by congruence. subst tok.
  assert (Hc : cleaned = ys ++ ms ++ ds) by exact (token_clean _ _ _ _ _ Ht).
  pose proof Ht as (x1 & x2 & _ & Hy & _ & Hm & _ & Hd).
  destruct (fields_of_digits ys ms ds [] Hy Hm Hd) as (Fy & Fm & Fd).
  rewrite !app_nil_r in Fy, Fm, Fd.
  assert (Hdate : writes_date cleaned
                  = valid_date (py_int ys) (py_int ms) (py_int ds)).
  { unfold writes_date. now rewrite Hc, Fy, Fm, Fd. }
  assert (Hmid : midnight_of cleaned
                 = mk_datetime (py_int ys) (py_int ms) (py_int ds) 0 0 0).
  { unfold midnight_of. now rewrite Hc, Fy, Fm, Fd. }
  split; [| split; [| reflexivity]].
  - intros time_str Et datetime_str Hbad.
    destruct H2 as [Hn | (ttok & hs & ns & ss & Ett & Htt)]; [congruence |].
    assert (ttok = time_str) by congruence. subst ttok.
    rewrite (extract_date_time _ _ date_str ys ms ds time_str hs ns ss
               Hs H1 Ht Et Htt).
    pose proof Htt as (y1 & y2 & _ & Hh & _ & Hn & _ & Hss).
    assert (Hdt : datetime_str = ys ++ ms ++ ds ++ hs ++ ns ++ ss).
    { unfold datetime_str. rewrite Hc, (token_clean _ _ _ _ _ Htt),
        (ljust_time _ _ _ Hh Hn Hss), <- !app_assoc. reflexivity. }
    destruct (fields_of_digits ys ms ds (hs ++ ns ++ ss) Hy Hm Hd)
      as (Gy & Gm & Gd).
    destruct (time_of_digits ys ms ds hs ns ss Hy Hm Hd Hh Hn Hss)
      as (Gh & Gn & Gs).
    unfold writes_date, writes_time in Hbad.
    rewrite Hdt, Gy, Gm, Gd, Gh, Gn, Gs in Hbad.
    rewrite Hdate, Hmid. unfold datetime_new at 1. rewrite Hbad.
    unfold datetime_new, orelse. cbn [valid_time Z.leb Z.compare andb].
    now rewrite andb_true_r.
  - intro Hbad. rewrite Hdate in Hbad.
    destruct H2 as [Hn | (ttok & hs & ns & ss & Ett & Htt)].
    + rewrite (extract_date_only _ _ date_str ys ms ds Hs H1 Ht Hn).
      unfold datetime_new. now rewrite Hbad.
    + rewrite (extract_date_time _ _ date_str ys ms ds ttok hs ns ss
                 Hs H1 Ht Ett Htt).
      unfold datetime_new. now rewrite Hbad.
Qed.

Lemma extraction_degrades_in_two_stages_witness :
  extract_datetime_from_filename (py "20240229_256199.jpg")
  = Some (mk_datetime 2024 2 29 0 0 0).
Proof.
  apply (proj1 (extraction_degrades_in_two_stages
                  (py "20240229_256199.jpg")
                  (set_group 2 (py "256199")
                     (set_group 1 (py "20240229") no_caps))
                  (py "20240229") eq_refl eq_refl)
           (py "256199") eq_refl eq_refl).
Defined.

(** The examples of the specification, and two names with a second run of
    digits: the search keeps the leftmost token, and a later date can be read
    as a time. *)
Example date_only_name :
  extract_datetime_from_filename (py "20230415_photo.jpg")
  = Some (mk_datetime 2023 4 15 0 0 0).
Proof. reflexivity. Qed.

Example name_without_digits :
  extract_datetime_from_filename (py "vacation.jpg") = None.
Proof. reflexivity. Qed.

Example month_13 :
  extract_datetime_from_filename (py "20231399.jpg") = None.
Proof. reflexivity. Qed.

Example later_date_read_as_time :
  extract_datetime_from_filename (py "20220101_20230415.jpg")
  = Some (mk_datetime 2022 1 1 23 4 15).
Proof. reflexivity. Qed.

Example leap_second_falls_back :
  extract_datetime_from_filename (py "20240229_235960.jpg")
  = Some (mk_datetime 2024 2 29 0 0 0).
Proof. reflexivity. Qed.

(** A name in which no date token starts gives nothing. *)
Lemma extract_without_date_token (filename : str) :
  (forall i, date_rest (skipn i filename) = None) ->
  extract_datetime_from_filename filename = None.
Proof.
  intro H. unfold extract_datetime_from_filename.
  rewrite <- (app_nil_r filename) at 1.
  rewrite re_search_skip.
  - reflexivity.
  - intros i _. rewrite app_nil_r. apply re_match_no_date, H.
Qed.

(** ** The extractor returns dates and times [datetime] accepts *)

Lemma datetime_new_valid (y m dd h mi s : Z) (dt : datetime) :
  datetime_new y m dd h mi s = Some dt ->
  dt = mk_datetime y m dd h mi s /\
  valid_date y m dd = true /\ valid_time h mi s = true.
Proof.
  unfold datetime_new. intro H.
  destruct (valid_date y m dd); [| discriminate].
  destruct (valid_time h mi s); [| discriminate].
  injection H as <-. tauto.
Qed.


(** ** [strftime] *)


Lemma py_int_snoc (x : str) (c : ascii) :
  is_digit c = true -> py_int (x ++ [c]) = (10 * py_int x + digit_value c)%Z.
Proof.
  intro H. unfold py_int. rewrite fold_left_app. simpl. now rewrite H.
Qed.




(** From 1000 to 9999 it has four digits: those of [zpad 4]. *)
Lemma decimal_four (n : Z) :
  (1000 <= n <= 9999)%Z -> decimal n = zpad 4 n.
Proof.
  intro H. unfold decimal.
  assert (Hf : exists k, Z.to_nat n = S (S (S k))).
  { exists (Z.to_nat n - 3)%nat. lia. }
  destruct Hf as [k ->].
  assert (H1 : (100 <= n / 10 <= 999)%Z).
  { split; [apply Z.div_le_lower_bound; lia
           | apply Z.lt_succ_r, Z.div_lt_upper_bound; lia]. }
  assert (H2 : (10 <= n / 10 / 10 <= 99)%Z).
  { split; [apply Z.div_le_lower_bound; lia
           | apply Z.lt_succ_r, Z.div_lt_upper_bound; lia]. }
  assert (H3 : (1 <= n / 10 / 10 / 10 <= 9)%Z).
  { split; [apply Z.div_le_lower_bound; lia
           | apply Z.lt_succ_r, Z.div_lt_upper_bound; lia]. }
  cbn [decimal_digits zpad].
  rewrite (proj2 (Z.ltb_ge n 10)) by lia.
  rewrite (proj2 (Z.ltb_ge (n / 10) 10)) by lia.
  rewrite (proj2 (Z.ltb_ge (n / 10 / 10) 10)) by lia.
  rewrite (proj2 (Z.ltb_lt (n / 10 / 10 / 10) 10)) by lia.
  rewrite (Z.mod_small (n / 10 / 10 / 10) 10) by lia.
  reflexivity.
Qed.

(** The format of the metadata value: the date, and zeros for the time
    whatever the time of [dt]. *)
Lemma strftime_exif (dt : datetime) :
  strftime dt (py "%Y:%m:%d 00:00:00")
  = decimal (year dt) ++ ":" :: zpad 2 (month dt) ++ ":" :: zpad 2 (day dt)
    ++ py " 00:00:00".
Proof. reflexivity. Qed.

(** ** [process_images] *)

Section ProcessorProofs.

Variable W : Type.
Variable sys : OS W.

Lemma output_file_of_spec (cfg : config) (filename : str) (st : state W) :
  output_file_of cfg (os_path_join (directory cfg) filename) filename st
  = match output_path cfg filename with
    | Some out => ([], st, inl out)
    | None => ([], st, inr TypeError)
    end.
Proof.
  unfold output_file_of, output_path, join_under.
  destruct (in_place cfg); [reflexivity |].
  destruct (processed_dir cfg); reflexivity.
Qed.

Lemma place_stats (cfg : config) (a b : str) (st st' : state W)
  (ev : list event) (r : unit + exn) :
  place sys cfg a b st = (ev, st', r) -> stats st' = stats st.
Proof.
  unfold place, shutil_move, shutil_copy2, call, ret.
  destruct (in_place cfg); simpl.
  - intro H. now injection H as _ <- _.
  - destruct (move cfg).
    + destruct (sys_move sys (world st) a b) as [w ok].
      intro H. now injection H as _ <- _.
    + destruct (sys_copy2 sys (world st) a b) as [w ok].
      intro H. now injection H as _ <- _.
Qed.

(** The calls of the placement: none in place, else one move or one copy. *)
Lemma place_events (cfg : config) (a b : str) (st st' : state W)
  (ev : list event) (r : unit + exn) :
  place sys cfg a b st = (ev, st', r) ->
  ev = if in_place cfg then []
       else if move cfg then [Move a b] else [Copy2 a b].
Proof.
  unfold place, shutil_move, shutil_copy2, call, ret.
  destruct (in_place cfg); simpl.
  - intro H. now injection H as <- _ _.
  - destruct (move cfg).
    + destruct (sys_move sys (world st) a b) as [w ok].
      intro H. now injection H as <- _ _.
    + destruct (sys_copy2 sys (world st) a b) as [w ok].
      intro H. now injection H as <- _ _.
Qed.

(** The three ends of the write step. *)
Lemma write_metadata_done (cfg : config) (exif_date out : str) (has : bool)
  (st : state W) (w : W) (q : CompletedProcess) :
  sys_run sys (world st) (write_command exif_date out) = (w, Some q) ->
  returncode q = 0%Z ->
  write_metadata sys cfg exif_date out has st
  = ([Run (write_command exif_date out) true],
     mk_state w (incr (if has && replace_old_metadata cfg
                       then files_metadata_replaced else files_changed)
                      (stats st)),
     inl tt).
Proof.
  intros Hq Hrc.
  cbv [write_metadata try_except bind subprocess_run bump].
  rewrite Hq, Hrc. cbn [andb negb Z.eqb world stats].
  destruct (has && replace_old_metadata cfg); reflexivity.
Qed.

Lemma write_metadata_failed (cfg : config) (exif_date out : str) (has : bool)
  (st : state W) (w : W) (q : CompletedProcess) :
  sys_run sys (world st) (write_command exif_date out) = (w, Some q) ->
  returncode q <> 0%Z ->
  write_metadata sys cfg exif_date out has st
  = ([Run (write_command exif_date out) true],
     mk_state w (incr files_error (stats st)),
     inl tt).
Proof.
  intros Hq Hrc. apply Z.eqb_neq in Hrc.
  cbv [write_metadata try_except bind subprocess_run bump].
  rewrite Hq, Hrc. reflexivity.
Qed.

Lemma write_metadata_not_started (cfg : config) (exif_date out : str)
  (has : bool) (st : state W) (w : W) :
  sys_run sys (world st) (write_command exif_date out) = (w, None) ->
  write_metadata sys cfg exif_date out has st
  = ([Run (write_command exif_date out) true],
     mk_state w (stats st), inr OSError).
Proof.
  intro Hq.
  cbv [write_metadata try_except bind subprocess_run bump].
  rewrite Hq. reflexivity.
Qed.

(** The body of the loop once the name has given a date and the query has
    answered: skip, or place and write. *)
Lemma process_entry_dated (cfg : config) (filename out : str)
  (date_obj : datetime) (st : state W) (w1 : W) (result : CompletedProcess) :
  output_path cfg filename = Some out ->
  extract_datetime_from_filename filename = Some date_obj ->
  sys_run sys (world st)
          (check_command (os_path_join (directory cfg) filename))
  = (w1, Some result) ->
  let input_file := os_path_join (directory cfg) filename in
  let has := truthy (Some (strip (stdout result))) in
  let st1 := mk_state w1 (incr total_files (stats st)) in
  process_entry sys cfg filename st
  = if has && negb (replace_old_metadata cfg) then
      ([Run (check_command input_file) false],
       mk_state w1 (incr files_skipped_existing_metadata (stats st1)),
       inl tt)
    else
      match place sys cfg input_file out st1 with
      | (evp, st2, inl _) =>
          let '(evw, st3, r) :=
            write_metadata sys cfg
              (strftime date_obj (py "%Y:%m:%d 00:00:00")) out has st2 in
          (Run (check_command input_file) false :: evp ++ evw, st3, r)
      | (evp, st2, inr e) =>
          (Run (check_command input_file) false :: evp, st2, inr e)
      end.
Proof.
  intros Hout Hd Hq input_file has st1.
  cbv [process_entry bind]. cbn [bump].
  rewrite output_file_of_spec, Hout, Hd.
  cbv [subprocess_run]. cbn [world stats andb]. rewrite Hq.
  fold input_file. fold has.
  destruct (has && negb (replace_old_metadata cfg)); [reflexivity |].
  fold st1.
  destruct (place sys cfg input_file out st1) as [[evp st2] [[] | e]];
    [| reflexivity].
  destruct (write_metadata sys cfg _ out has st2) as [[evw st3] r].
  reflexivity.
Qed.

(** C6: a file whose name gives a date and whose metadata query returns
    text that is not empty once stripped is skipped when
    [replace_old_metadata] is false: besides the count of the files seen,
    only [files_skipped_existing_metadata] is incremented, and the query is
    the only call made for the file, so no copy, no move and no metadata
    write. *)
Theorem existing_metadata_is_left_alone
  (cfg : config) (filename out : str) (date_obj : datetime)
  (st : state W) (w1 : W) (result : CompletedProcess) :
  output_path cfg filename = Some out ->
  extract_datetime_from_filename filename = Some date_obj ->
  sys_run sys (world st)
          (check_command (os_path_join (directory cfg) filename))
  = (w1, Some result) ->
  truthy (Some (strip (stdout result))) = true ->
  replace_old_metadata cfg = false ->
  process_entry sys cfg filename st
  = ([Run (check_command (os_path_join (directory cfg) filename)) false],
     mk_state w1 (incr files_skipped_existing_metadata
                       (incr total_files (stats st))),
     inl tt).
Proof.
  intros Hout Hd Hq Hmeta Hrep.
  rewrite (process_entry_dated cfg filename out date_obj st w1 result
             Hout Hd Hq).
  cbv zeta. rewrite Hmeta, Hrep. reflexivity.
Qed.

(** C7: on a successful metadata write exactly one counter is incremented,
    decided by the query made on the input file before the placement:
    [files_metadata_replaced] when its output, stripped, was not empty (the
    file reached the write because [replace_old_metadata] is true),
    [files_changed] otherwise; never both. *)
Theorem successful_write_counts_once
  (cfg : config) (filename out : str) (date_obj : datetime)
  (st st2 : state W) (w1 w3 : W) (result done : CompletedProcess)
  (evp : list event) :
  let input_file := os_path_join (directory cfg) filename in
  let exif_date := strftime date_obj (py "%Y:%m:%d 00:00:00") in
  let has := truthy (Some (strip (stdout result))) in
  output_path cfg filename = Some out ->
  extract_datetime_from_filename filename = Some date_obj ->
  sys_run sys (world st) (check_command input_file) = (w1, Some result) ->
  (has = true -> replace_old_metadata cfg = true) ->
  place sys cfg input_file out (mk_state w1 (incr total_files (stats st)))
  = (evp, st2, inl tt) ->
  sys_run sys (world st2) (write_command exif_date out) = (w3, Some done) ->
  returncode done = 0%Z ->
  let counted := if has then files_metadata_replaced else files_changed in
  let after := incr counted (incr total_files (stats st)) in
  process_entry sys cfg filename st
  = (Run (check_command input_file) false
       :: evp ++ [Run (write_command exif_date out) true],
     mk_state w3 after, inl tt) /\
  get files_metadata_replaced after
  = (get files_metadata_replaced (stats st) + if has then 1 else 0)%Z /\
  get files_changed after
  = (get files_changed (stats st) + if has then 0 else 1)%Z.
Proof.
  intros input_file exif_date has Hout Hd Hq Hreach Hp Hw Hrc counted after.
  split.
  - rewrite (process_entry_dated cfg filename out date_obj st w1 result
               Hout Hd Hq).
    cbv zeta. fold input_file. fold has. fold exif_date.
    assert (E : has && negb (replace_old_metadata cfg) = false).
    { destruct has; [rewrite Hreach by reflexivity |]; reflexivity. }
    rewrite E, Hp.
    rewrite (write_metadata_done cfg _ out has st2 w3 done Hw Hrc).
    rewrite (place_stats _ _ _ _ _ _ _ Hp). cbn [stats].
    unfold after, counted.
    destruct has; [rewrite Hreach by reflexivity |]; reflexivity.
  - unfold after, counted. destruct (stats st), has; simpl; lia.
Qed.

(** C8: a metadata write the tool ends with a return code other than 0 is
    contained in its file: [files_error] is incremented, nothing is called
    after the failed write (the copy or the move made before it stays), the
    body of the loop returns, and the loop goes on with the next name. *)
Theorem write_failure_is_contained
  (cfg : config) (filename out : str) (date_obj : datetime)
  (st st2 : state W) (w1 w3 : W) (result done : CompletedProcess)
  (evp : list event) :
  let input_file := os_path_join (directory cfg) filename in
  let exif_date := strftime date_obj (py "%Y:%m:%d 00:00:00") in
  let has := truthy (Some (strip (stdout result))) in
  output_path cfg filename = Some out ->
  extract_datetime_from_filename filename = Some date_obj ->
  sys_run sys (world st) (check_command input_file) = (w1, Some result) ->
  (has = true -> replace_old_metadata cfg = true) ->
  place sys cfg input_file out (mk_state w1 (incr total_files (stats st)))
  = (evp, st2, inl tt) ->
  sys_run sys (world st2) (write_command exif_date out) = (w3, Some done) ->
  returncode done <> 0%Z ->
  let events :=
    Run (check_command input_file) false
      :: evp ++ [Run (write_command exif_date out) true] in
  let after :=
    mk_state w3 (incr files_error (incr total_files (stats st))) in
  process_entry sys cfg filename st = (events, after, inl tt) /\
  evp = (if in_place cfg then []
         else if move cfg then [Move input_file out]
              else [Copy2 input_file out]) /\
  forall rest : list str,
    for_each (filename :: rest) (process_entry sys cfg) st
    = let '(ev2, st', r) := for_each rest (process_entry sys cfg) after in
      (events ++ ev2, st', r).
Proof.
  intros input_file exif_date has Hout Hd Hq Hreach Hp Hw Hrc events after.
  assert (E : process_entry sys cfg filename st = (events, after, inl tt)).
  { rewrite (process_entry_dated cfg filename out date_obj st w1 result
               Hout Hd Hq).
    cbv zeta. fold input_file. fold has. fold exif_date.
    assert (E : has && negb (replace_old_metadata cfg) = false).
    { destruct has; [rewrite Hreach by reflexivity |]; reflexivity. }
    rewrite E, Hp.
    rewrite (write_metadata_failed cfg _ out has st2 w3 done Hw Hrc).
    rewrite (place_stats _ _ _ _ _ _ _ Hp). reflexivity. }
  split; [exact E | split].
  - exact (place_events _ _ _ _ _ _ _ Hp).
  - intro rest. cbn [for_each]. unfold bind at 1. rewrite E. reflexivity.
Qed.

(** ** Every path through the body of the loop *)

Lemma write_metadata_cases (cfg : config) (exif_date out : str) (has : bool)
  (st st' : state W) (ev : list event) (r : unit + exn) :
  write_metadata sys cfg exif_date out has st = (ev, st', r) ->
  ev = [Run (write_command exif_date out) true] /\
  ((r = inl tt /\
    exists k, In k [files_metadata_replaced; files_changed; files_error] /\
              stats st' = incr k (stats st)) \/
   (r = inr OSError /\ stats st' = stats st)).
Proof.
  destruct (sys_run sys (world st) (write_command exif_date out))
    as [w [q |]] eqn:Hq.
  - destruct (Z.eq_dec (returncode q) 0) as [Hrc | Hrc].
    + rewrite (write_metadata_done cfg _ _ has st w q Hq Hrc).
      intro H. injection H as <- <- <-. split; [reflexivity | left].
      split; [reflexivity |].
      destruct (has && replace_old_metadata cfg);
        eexists; (split; [| reflexivity]); simpl; tauto.
    + rewrite (write_metadata_failed cfg _ _ has st w q Hq Hrc).
      intro H. injection H as <- <- <-. split; [reflexivity | left].
      split; [reflexivity |].
      exists files_error. split; [simpl; tauto | reflexivity].
  - rewrite (write_metadata_not_started cfg _ _ has st w Hq).
    intro H. injection H as <- <- <-. split; [reflexivity | right].
    split; reflexivity.
Qed.

(** The calls of one iteration and what it does to the counters. *)
Lemma process_entry_cases (cfg : config) (filename : str)
  (st st' : state W) (ev : list event) (r : unit + exn) :
  process_entry sys cfg filename st = (ev, st', r) ->
  let input_file := os_path_join (directory cfg) filename in
  (forall e, In e ev ->
     exists out,
       output_path cfg filename = Some out /\
       (e = Run (check_command input_file) false \/
        e = Move input_file out \/ e = Copy2 input_file out \/
        exists date_obj,
          extract_datetime_from_filename filename = Some date_obj /\
          e = Run (write_command
                     (strftime date_obj (py "%Y:%m:%d 00:00:00")) out)
                  true)) /\
  (r = inl tt ->
   exists k,
     In k [files_changed; files_metadata_replaced; files_skipped_no_date;
           files_skipped_existing_metadata; files_error] /\
     stats st' = incr k (incr total_files (stats st))).
Proof.
  intros H input_file.
  destruct (output_path cfg filename) as [out |] eqn:Hout.
  2:{ revert H. cbv [process_entry bind]. cbn [bump].
      rewrite output_file_of_spec, Hout. intro H.
      injection H as <- <- <-. split; [intros e [] | discriminate]. }
  destruct (extract_datetime_from_filename filename) as [date_obj |] eqn:Hd.
  2:{ revert H. cbv [process_entry bind]. cbn [bump].
      rewrite output_file_of_spec, Hout, Hd. intro H.
      injection H as <- <- <-. split; [intros e [] |].
      intros _. exists files_skipped_no_date. split; [simpl; tauto |].
      reflexivity. }
  destruct (sys_run sys (world st) (check_command input_file))
    as [w1 [result |]] eqn:Hq.
  2:{ revert H. cbv [process_entry bind]. cbn [bump].
      rewrite output_file_of_spec, Hout, Hd.
      cbv [subprocess_run]. cbn [world stats]. fold input_file. rewrite Hq.
      intro H. injection H as <- <- <-. split; [| discriminate].
      intros e [<- | []]. exists out. tauto. }
  rewrite (process_entry_dated cfg filename out date_obj st w1 result
             Hout Hd Hq) in H.
  cbv zeta in H. fold input_file in H.
  destruct (truthy (Some (strip (stdout result)))
            && negb (replace_old_metadata cfg)).
  { injection H as <- <- <-. split.
    - intros e [<- | []]. exists out. tauto.
    - intros _. exists files_skipped_existing_metadata.
      split; [simpl; tauto | reflexivity]. }
  destruct (place sys cfg input_file out
              (mk_state w1 (incr total_files (stats st))))
    as [[evp st2] [[] | e]] eqn:Hp.
  2:{ injection H as <- <- <-. split; [| discriminate].
      pose proof (place_events _ _ _ _ _ _ _ Hp) as Ep.
      intros e' [<- | He]; [exists out; tauto |].
      exists out. split; [reflexivity |].
      rewrite Ep in He.
      destruct (in_place cfg); [destruct He |].
      destruct (move cfg); destruct He as [<- | []]; tauto. }
  destruct (write_metadata sys cfg
              (strftime date_obj (py "%Y:%m:%d 00:00:00")) out
              (truthy (Some (strip (stdout result)))) st2)
    as [[evw st3] r'] eqn:Hw.
  injection H as <- <- <-.
  destruct (write_metadata_cases _ _ _ _ _ _ _ _ Hw) as [Ew Hr].
  pose proof (place_events _ _ _ _ _ _ _ Hp) as Ep.
  pose proof (place_stats _ _ _ _ _ _ _ Hp) as Es. cbn [stats] in Es.
  split.
  - intros e' [<- | He]; [exists out; tauto |].
    exists out. split; [reflexivity |].
    apply in_app_or in He. destruct He as [He | He].
    + rewrite Ep in He.
      destruct (in_place cfg); [destruct He |].
      destruct (move cfg); destruct He as [<- | []]; tauto.
    + rewrite Ew in He. destruct He as [<- | []].
      right. right. right. exists date_obj. split; reflexivity.
  - intros ->. destruct Hr as [[_ (k & Hk & Hs)] | [Habs _]];
      [| discriminate].
    exists k. split; [simpl in *; tauto | now rewrite Hs, Es].
Qed.


(** ** The counters *)

Lemma incr_outcome (k : key) (s : Stats) :
  In k [files_changed; files_metadata_replaced; files_skipped_no_date;
        files_skipped_existing_metadata; files_error] ->
  get total_files (incr k (incr total_files s))
  = (get total_files s + 1)%Z /\
  outcomes (incr k (incr total_files s)) = (outcomes s + 1)%Z.
Proof.
  intro H. destruct s. unfold outcomes. simpl in H.
  repeat (destruct H as [<- | H]; [simpl; lia |]). destruct H.
Qed.

(** Each name of the listing counts once as seen and once as an outcome. *)
Lemma for_each_counts (cfg : config) (names : list str) :
  forall (st st' : state W) (ev : list event),
    for_each names (process_entry sys cfg) st = (ev, st', inl tt) ->
    get total_files (stats st')
    = (get total_files (stats st) + Z.of_nat (length names))%Z /\
    outcomes (stats st') = (outcomes (stats st) + Z.of_nat (length names))%Z.
Proof.
  induction names as [| f names IH]; intros st st' ev H.
  - injection H as _ <-. simpl. lia.
  - cbn [for_each] in H. unfold bind at 1 in H.
    destruct (process_entry sys cfg f st) as [[ev1 st1] [[] | e]] eqn:E1;
      [| discriminate].
    destruct (for_each names (process_entry sys cfg) st1)
      as [[ev2 st2] r2] eqn:E2.
    injection H as _ <- ->.
    destruct (IH _ _ _ E2) as [T O].
    destruct (process_entry_cases _ _ _ _ _ _ E1) as [_ Hk].
    destruct (Hk eq_refl) as (k & Hin & Hs).
    destruct (incr_outcome k (stats st) Hin) as [T1 O1].
    rewrite T, O, Hs, T1, O1. cbn [length]. lia.
Qed.

(** C9: for every run of [process_images] that returns, the count of the
    files seen is the sum of the five outcome counters; each name of the
    listing is one file seen and one outcome. *)
Theorem total_is_the_sum_of_the_outcomes
  (cfg : config) (w : W) (ev : list event) (st : state W) (s : Stats) :
  run_process_images sys cfg w = (ev, st, inl s) ->
  get total_files s = outcomes s.
Proof.
  unfold run_process_images, process_images.
  set (prepare := if negb (in_place cfg) && truthy (processed_dir cfg)
                  then _ else _).
  unfold bind at 1.
  destruct (prepare (mk_state w zero_stats)) as [[ev0 st0] [[] | e]];
    [| discriminate].
  unfold bind at 1. cbn [new_stats].
  unfold bind at 1. unfold os_listdir at 1. cbn [world stats].
  destruct (sys_listdir sys (world st0) (directory cfg)) as [w1 [names |]];
    [| discriminate].
  unfold bind at 1.
  destruct (for_each names (process_entry sys cfg) (mk_state w1 zero_stats))
    as [[ev2 st2] [[] | e]] eqn:E; [| discriminate].
  cbn [read_stats]. intro H. injection H as _ _ <-.
  destruct (for_each_counts _ _ _ _ _ E) as [T O].
  rewrite T, O. reflexivity.
Qed.

(** ** The destination directory *)

Lemma for_each_no_makedirs (cfg : config) (names : list str) :
  forall (st st' : state W) (ev : list event) (r : unit + exn) (p : str),
    for_each names (process_entry sys cfg) st = (ev, st', r) ->
    ~ In (Makedirs p) ev.
Proof.
  induction names as [| f names IH]; intros st st' ev r p H.
  - injection H as <- _ _. intros [].
  - cbn [for_each] in H. unfold bind at 1 in H.
    destruct (process_entry sys cfg f st) as [[ev1 st1] [[] | e]] eqn:E1.
    + destruct (for_each names (process_entry sys cfg) st1)
        as [[ev2 st2] r2] eqn:E2.
      injection H as <- _ _. intro Hin. apply in_app_or in Hin.
      destruct Hin as [Hin | Hin]; [| exact (IH _ _ _ _ _ E2 Hin)].
      destruct (process_entry_cases _ _ _ _ _ _ E1) as [Hev _].
      destruct (Hev _ Hin) as (out & _ & [E | [E | [E | (dt & _ & E)]]]);
        discriminate E.
    + injection H as <- _ _. intro Hin.
      destruct (process_entry_cases _ _ _ _ _ _ E1) as [Hev _].
      destruct (Hev _ Hin) as (out & _ & [E | [E | [E | (dt & _ & E)]]]);
        discriminate E.
Qed.

(** C10: [process_images] needs a destination directory when [in_place] is
    false.  Called with [in_place] false and [processed_dir] absent, on a
    directory that has a first entry, it raises [TypeError] while computing
    the output path of that entry: the file is counted as seen, and no
    extraction outcome, no query and no placement has taken place.  The
    destination directory is created only when [processed_dir] is given (and
    not empty) and [in_place] is false. *)
Theorem destination_is_required (cfg : config) :
  (forall (w w' : W) (filename : str) (rest : list str),
     in_place cfg = false -> processed_dir cfg = None ->
     sys_listdir sys w (directory cfg) = (w', Some (filename :: rest)) ->
     run_process_images sys cfg w
     = ([Listdir (directory cfg)],
        mk_state w' (incr total_files zero_stats), inr TypeError)) /\
  (forall (w : W) (ev : list event) (st : state W) (r : Stats + exn)
          (p : str),
     run_process_images sys cfg w = (ev, st, r) ->
     In (Makedirs p) ev ->
     in_place cfg = false /\ processed_dir cfg = Some p /\ p <> []).
Proof.
  split.
  - intros w w' filename rest Hip Hpd Hls.
    unfold run_process_images, process_images. rewrite Hip, Hpd.
    cbn [negb truthy andb]. cbv [bind ret new_stats os_listdir].
    cbn [world stats]. rewrite Hls. cbn [for_each].
    cbv [bind process_entry]. cbn [bump world stats].
    rewrite output_file_of_spec. unfold output_path. rewrite Hip, Hpd.
    reflexivity.
  - intros w ev st r p. unfold run_process_images, process_images.
    assert (G : forall (ev0 : list event) (st0 : state W),
              (~ In (Makedirs p) ev0) ->
              (let '(ev2, st2, r2) :=
                 (bind new_stats (fun _ =>
                  bind (os_listdir sys (directory cfg)) (fun names =>
                  bind (for_each names (process_entry sys cfg))
                       (fun _ => read_stats)))) st0 in
               (ev0 ++ ev2, st2, r2)) = (ev, st, r) ->
              ~ In (Makedirs p) ev).
    { intros ev0 st0 Hev0. unfold bind at 1. cbn [new_stats].
      unfold bind at 1. unfold os_listdir at 1. cbn [world stats].
      destruct (sys_listdir sys (world st0) (directory cfg))
        as [w1 [names |]].
      - unfold bind at 1.
        destruct (for_each names (process_entry sys cfg)
                    (mk_state w1 zero_stats)) as [[ev2 st2] r2] eqn:E.
        pose proof (for_each_no_makedirs _ _ _ _ _ _ p E) as N.
        destruct r2 as [[] | e]; cbn [read_stats app];
          intro H; injection H as <- _ _; intro Hin;
          apply in_app_or in Hin; destruct Hin as [Hin | Hin];
          try (exact (Hev0 Hin));
          try (destruct Hin as [Hin | Hin]; [discriminate Hin |]);
          try rewrite app_nil_r in Hin; try exact (N Hin).
      - cbn [app]. intro H. injection H as <- _ _. intro Hin.
        apply in_app_or in Hin. destruct Hin as [Hin | Hin];
          [exact (Hev0 Hin) |].
        destruct Hin as [Hin | []]. discriminate Hin. }
    destruct (in_place cfg) eqn:Hip; cbn [negb andb].
    + unfold bind at 1. cbn [ret]. intros H Hin.
      exfalso. exact (G [] _ (fun x => x) H Hin).
    + destruct (processed_dir cfg) as [[| c dir] |] eqn:Hpd; cbn [truthy].
      * unfold bind at 1. cbn [ret]. intros H Hin.
        exfalso. exact (G [] _ (fun x => x) H Hin).
      * unfold bind at 1. unfold os_makedirs at 1, call at 1.
        destruct (sys_makedirs sys (world (mk_state w zero_stats)) (c :: dir))
          as [w0 [|]].
        -- intros H Hin.
           destruct (list_eq_dec ascii_dec p (c :: dir)) as [-> | Hne].
           ++ repeat split; discriminate.
           ++ exfalso. refine (G [Makedirs (c :: dir)] _ _ H Hin).
              intros [E | []]. congruence.
        -- intros H Hin. injection H as <- _ _.
           destruct Hin as [E | []]. injection E as <-.
           repeat split; discriminate.
      * unfold bind at 1. cbn [ret]. intros H Hin.
        exfalso. exact (G [] _ (fun x => x) H Hin).
Qed.

End ProcessorProofs.

(** ** The theorems of the processor at work in the demo world *)



Lemma existing_metadata_is_left_alone_witness :
  process_entry demo_sys demo_cfg_keep (py "IMG_20230417_tagged.jpg")
                (mk_state tt zero_stats)
  = ([Run (check_command (py "in/IMG_20230417_tagged.jpg")) false],
     mk_state tt (mk_stats 1 0 0 1 0 0), inl tt).
Proof.
  apply (existing_metadata_is_left_alone unit demo_sys demo_cfg_keep
           (py "IMG_20230417_tagged.jpg") (py "out/IMG_20230417_tagged.jpg")
           (mk_datetime 2023 4 17 0 0 0) (mk_state tt zero_stats) tt
           (mk_completed 0 (py "2020:01:01 10:00:00" ++ ["010"]) []));
    reflexivity.
Defined.

Lemma successful_write_counts_once_witness :
  process_entry demo_sys demo_cfg (py "IMG_20230417_tagged.jpg")
                (mk_state tt zero_stats)
  = ([Run (check_command (py "in/IMG_20230417_tagged.jpg")) false;
      Copy2 (py "in/IMG_20230417_tagged.jpg")
            (py "out/IMG_20230417_tagged.jpg");
      Run (write_command (py "2023:04:17 00:00:00")
                         (py "out/IMG_20230417_tagged.jpg")) true],
     mk_state tt (mk_stats 1 0 0 0 1 0), inl tt).
Proof.
  apply (proj1 (successful_write_counts_once unit demo_sys demo_cfg
           (py "IMG_20230417_tagged.jpg") (py "out/IMG_20230417_tagged.jpg")
           (mk_datetime 2023 4 17 0 0 0)
           (mk_state tt zero_stats) (mk_state tt (mk_stats 1 0 0 0 0 0)) tt tt
           (mk_completed 0 (py "2020:01:01 10:00:00" ++ ["010"]) [])
           (mk_completed 0 [] [])
           [Copy2 (py "in/IMG_20230417_tagged.jpg")
                  (py "out/IMG_20230417_tagged.jpg")]
           eq_refl eq_refl eq_refl (fun _ => eq_refl) eq_refl eq_refl
           eq_refl)).
Defined.

Lemma write_failure_is_contained_witness :
  process_entry demo_sys demo_cfg (py "2023-04-16 bad.jpg")
                (mk_state tt zero_stats)
  = ([Run (check_command (py "in/2023-04-16 bad.jpg")) false;
      Copy2 (py "in/2023-04-16 bad.jpg") (py "out/2023-04-16 bad.jpg");
      Run (write_command (py "2023:04:16 00:00:00")
                         (py "out/2023-04-16 bad.jpg")) true],
     mk_state tt (mk_stats 1 0 0 0 0 1), inl tt).
Proof.
  refine (proj1 (write_failure_is_contained unit demo_sys demo_cfg
           (py "2023-04-16 bad.jpg") (py "out/2023-04-16 bad.jpg")
           (mk_datetime 2023 4 16 0 0 0)
           (mk_state tt zero_stats) (mk_state tt (mk_stats 1 0 0 0 0 0)) tt tt
           (mk_completed 0 [] [])
           (mk_completed 1 [] (py "Error: not a valid image"))
           [Copy2 (py "in/2023-04-16 bad.jpg") (py "out/2023-04-16 bad.jpg")]
           eq_refl eq_refl eq_refl _ eq_refl eq_refl _)).
  - discriminate.
  - discriminate.
Defined.

Lemma total_is_the_sum_of_the_outcomes_witness :
  exists (ev : list event) (st : state unit),
    run_process_images demo_sys demo_cfg tt
    = (ev, st, inl (mk_stats 4 1 1 0 1 1)) /\
    get total_files (mk_stats 4 1 1 0 1 1) = outcomes (mk_stats 4 1 1 0 1 1).
Proof.
  eexists. eexists.
  assert (E : run_process_images demo_sys demo_cfg tt
              = (fst (fst (run_process_images demo_sys demo_cfg tt)),
                 snd (fst (run_process_images demo_sys demo_cfg tt)),
                 inl (mk_stats 4 1 1 0 1 1))) by reflexivity.
  split; [exact E |].
  exact (total_is_the_sum_of_the_outcomes unit demo_sys demo_cfg tt _ _ _ E).
Defined.

Lemma destination_is_required_witness :
  run_process_images demo_sys demo_cfg_nowhere tt
  = ([Listdir (py "in")], mk_state tt (mk_stats 1 0 0 0 0 0), inr TypeError).
Proof.
  apply (proj1 (destination_is_required unit demo_sys demo_cfg_nowhere)
           tt tt (py "20230415_a.jpg") (tl demo_names));
    reflexivity.
Defined.

(** * More of the extractor *)

(** The groups of the match at a position that starts with a date token,
    whatever follows the token. *)
Lemma re_match_token (tok ys ms ds post : str) :
  token 4 tok ys ms ds ->
  exists x' m,
    re_match pattern (tok ++ post) = Some (x', m) /\
    m 1%nat = Some tok /\
    (m 2%nat = None \/
     exists ttok hs ns ss, m 2%nat = Some ttok /\ token 2 ttok hs ns ss).
Proof.
  intro Ht. rewrite re_match_pattern. unfold date_rest.
  rewrite (token_rest _ _ _ _ _ post Ht). cbv zeta. rewrite taken_app.
  destruct (time_after (set_group 1 tok no_caps) post) as [[r c] |] eqn:E;
    simpl.
  - exists r, c. split; [reflexivity |].
    unfold time_after in E. apply star_inv in E. destruct E as (j & E).
    destruct (time_rest (skipn j post)) as [r' |] eqn:Er; [| discriminate].
    destruct (rest_token _ _ _ Er) as (ttok & hs & ns & ss & Ej & Htt).
    rewrite Ej, taken_app in E. injection E as _ <-.
    split; [reflexivity | right].
    exists ttok, hs, ns, ss. split; [reflexivity | exact Htt].
  - exists post, (set_group 1 tok no_caps).
    split; [reflexivity | split; [reflexivity | now left]].
Qed.

Lemma extract_without_date_token_witness :
  extract_datetime_from_filename (py "vacation.jpg") = None.
Proof.
  apply extract_without_date_token.
  intro i. do 12 (destruct i as [| i]; [reflexivity |]).
  destruct i; reflexivity.
Defined.

(** The search is not anchored: the text before the leftmost date token
    plays no part in the result. *)
Theorem text_before_the_date_is_ignored (pre x : str) :
  (forall i, (i < length pre)%nat -> date_rest (skipn i (pre ++ x)) = None) ->
  extract_datetime_from_filename (pre ++ x)
  = extract_datetime_from_filename x.
Proof.
  intro H. unfold extract_datetime_from_filename.
  rewrite re_search_skip; [reflexivity |].
  intros i Hi. apply re_match_no_date, H, Hi.
Qed.

Lemma text_before_the_date_is_ignored_witness :
  extract_datetime_from_filename (py "Photo 7 - " ++ py "2023-04-15 14.30.05.jpg")
  = extract_datetime_from_filename (py "2023-04-15 14.30.05.jpg").
Proof.
  apply text_before_the_date_is_ignored.
  intros i Hi. do 10 (destruct i as [| i]; [reflexivity |]).
  simpl in Hi. lia.
Defined.

Lemma leftmost_date_cases (pre tok post ys ms ds : str) :
  token 4 tok ys ms ds ->
  (forall i, (i < length pre)%nat ->
             date_rest (skipn i (pre ++ tok ++ post)) = None) ->
  (valid_date (py_int ys) (py_int ms) (py_int ds) = false ->
   extract_datetime_from_filename (pre ++ tok ++ post) = None) /\
  (valid_date (py_int ys) (py_int ms) (py_int ds) = true ->
   exists dt,
     extract_datetime_from_filename (pre ++ tok ++ post) = Some dt /\
     year dt = py_int ys /\ month dt = py_int ms /\ day dt = py_int ds).
Proof.
  intros Ht Hleft.
  destruct (re_match_token tok ys ms ds post Ht) as (x' & m & Hm & H1 & H2).
  pose proof (re_search_leftmost pre _ _ _ Hleft Hm) as Hs.
  destruct H2 as [Hn | (ttok & hs & ns & ss & Ett & Htt)].
  - rewrite (extract_date_only _ _ tok ys ms ds Hs H1 Ht Hn).
    unfold datetime_new. split; intros ->; [reflexivity |].
    eexists. split; [reflexivity | simpl; tauto].
  - rewrite (extract_date_time _ _ tok ys ms ds ttok hs ns ss
               Hs H1 Ht Ett Htt).
    unfold datetime_new. split; intros ->; [reflexivity |].
    destruct (valid_time (py_int hs) (py_int ns) (py_int ss));
      eexists; (split; [reflexivity | simpl; tauto]).
Qed.

(** Whether a name gives a timestamp is decided by its leftmost date token
    alone: nothing when the token does not write a date of the calendar, and
    a timestamp on that very date when it does, whatever follows the token
    (a time token, a time that does not exist, more digits). *)
Theorem leftmost_date_decides (pre tok post ys ms ds : str) :
  token 4 tok ys ms ds ->
  (forall i, (i < length pre)%nat ->
             date_rest (skipn i (pre ++ tok ++ post)) = None) ->
  (valid_date (py_int ys) (py_int ms) (py_int ds) = false ->
   extract_datetime_from_filename (pre ++ tok ++ post) = None) /\
  (valid_date (py_int ys) (py_int ms) (py_int ds) = true ->
   exists dt,
     extract_datetime_from_filename (pre ++ tok ++ post) = Some dt /\
     year dt = py_int ys /\ month dt = py_int ms /\ day dt = py_int ds).
Proof. exact (leftmost_date_cases pre tok post ys ms ds). Qed.

Lemma leftmost_date_decides_witness :
  extract_datetime_from_filename (py "scan_2023-02-30_101500.jpg") = None.
Proof.
  refine (proj1 (leftmost_date_decides
                   (py "scan_") (py "2023-02-30") (py "_101500.jpg")
                   (py "2023") (py "02") (py "30") _ _) _).
  - exists (py "-"), (py "-"). repeat split; reflexivity.
  - intros i Hi. do 5 (destruct i as [| i]; [reflexivity |]).
    simpl in Hi. lia.
  - reflexivity.
Defined.

(** Where a timestamp comes from: its date is the one the date token found
    by the search writes, and its time is midnight or the time the captured
    time token writes; nothing else of the name enters the result. *)
Theorem timestamp_comes_from_the_tokens (filename : str) (dt : datetime) :
  extract_datetime_from_filename filename = Some dt ->
  exists (m : caps) (tok ys ms ds : str),
    re_search pattern filename = Some m /\
    m 1%nat = Some tok /\ token 4 tok ys ms ds /\
    year dt = py_int ys /\ month dt = py_int ms /\ day dt = py_int ds /\
    valid_date (py_int ys) (py_int ms) (py_int ds) = true /\
    ((hour dt = 0 /\ minute dt = 0 /\ second dt = 0)%Z \/
     exists ttok hs ns ss,
       m 2%nat = Some ttok /\ token 2 ttok hs ns ss /\
       hour dt = py_int hs /\ minute dt = py_int ns /\
       second dt = py_int ss /\
       valid_time (py_int hs) (py_int ns) (py_int ss) = true).
Proof.
  intro E.
  destruct (re_search pattern filename) as [m |] eqn:Hs;
    [| unfold extract_datetime_from_filename in E; rewrite Hs in E;
       discriminate].
  destruct (re_search_pattern_inv _ _ Hs)
    as (tok & ys & ms & ds & E1 & Ht & H2).
  exists m, tok, ys, ms, ds.
  destruct H2 as [Hn | (ttok & hs & ns & ss & Ett & Htt)].
  - rewrite (extract_date_only _ _ tok ys ms ds Hs E1 Ht Hn) in E.
    apply datetime_new_valid in E. destruct E as (-> & Hv & _).
    simpl. repeat (split; [assumption || reflexivity |]).
    left. repeat split.
  - rewrite (extract_date_time _ _ tok ys ms ds ttok hs ns ss
               Hs E1 Ht Ett Htt) in E.
    destruct (datetime_new (py_int ys) (py_int ms) (py_int ds)
                           (py_int hs) (py_int ns) (py_int ss)) eqn:E2;
      simpl in E.
    + injection E as ->. apply datetime_new_valid in E2.
      destruct E2 as (-> & Hv & Hvt).
      simpl. repeat (split; [assumption || reflexivity |]).
      right. exists ttok, hs, ns, ss. repeat split; assumption.
    + apply datetime_new_valid in E. destruct E as (-> & Hv & _).
      simpl. repeat (split; [assumption || reflexivity |]).
      left. repeat split.
Qed.

Lemma timestamp_comes_from_the_tokens_witness :
  exists (m : caps) (tok ys ms ds : str),
    re_search pattern (py "IMG_2023-04-15 14.30.05.jpg") = Some m /\
    m 1%nat = Some tok /\ token 4 tok ys ms ds /\
    2023%Z = py_int ys /\ 4%Z = py_int ms /\ 15%Z = py_int ds /\
    valid_date (py_int ys) (py_int ms) (py_int ds) = true /\
    ((14 = 0 /\ 30 = 0 /\ 5 = 0)%Z \/
     exists ttok hs ns ss,
       m 2%nat = Some ttok /\ token 2 ttok hs ns ss /\
       14%Z = py_int hs /\ 30%Z = py_int ns /\ 5%Z = py_int ss /\
       valid_time (py_int hs) (py_int ns) (py_int ss) = true).
Proof.
  exact (timestamp_comes_from_the_tokens
           (py "IMG_2023-04-15 14.30.05.jpg")
           (mk_datetime 2023 4 15 14 30 5) eq_refl).
Defined.

(** The repetition stops at a character outside its class. *)
Lemma star_stops {A} (p : ascii -> bool) (before after : str) (a : ascii)
  (k : str -> option A) :
  p a = false ->
  (forall i, (i <= length before)%nat ->
             k (skipn i (before ++ a :: after)) = None) ->
  star p (before ++ a :: after) k = None.
Proof.
  intros Ha. induction before as [| b before IH]; intro H.
  - simpl. rewrite Ha. exact (H 0%nat (Nat.le_refl _)).
  - simpl. rewrite IH.
    + rewrite (H 0%nat (Nat.le_0_l _) : k (b :: before ++ a :: after) = None).
      destruct (p b); reflexivity.
    + intros i Hi. apply (H (S i)). simpl. lia.
Qed.

(** The gap before the time token does not cross a line feed: a time token
    after one is not read, and the date comes at midnight. *)
Theorem time_after_a_line_feed_is_not_read
  (pre tok before after ys ms ds : str) :
  token 4 tok ys ms ds ->
  (forall i, (i < length pre)%nat ->
             date_rest (skipn i (pre ++ tok ++ before ++ "010" :: after))
             = None) ->
  (forall i, (i <= length before)%nat ->
             time_rest (skipn i (before ++ "010" :: after)) = None) ->
  valid_date (py_int ys) (py_int ms) (py_int ds) = true ->
  extract_datetime_from_filename (pre ++ tok ++ before ++ "010" :: after)
  = Some (mk_datetime (py_int ys) (py_int ms) (py_int ds) 0 0 0).
Proof.
  intros Ht Hleft Hline Hv.
  assert (Hm : re_match pattern (tok ++ before ++ "010" :: after)
               = Some (before ++ "010" :: after, set_group 1 tok no_caps)).
  { rewrite re_match_pattern. unfold date_rest.
    rewrite (token_rest _ _ _ _ _ (before ++ "010" :: after) Ht).
    cbv zeta. rewrite taken_app. unfold time_after.
    rewrite star_stops; [reflexivity | reflexivity |].
    intros i Hi. now rewrite (Hline i Hi). }
  pose proof (re_search_leftmost pre _ _ _ Hleft Hm) as Hs.
  rewrite (extract_date_only _ _ tok ys ms ds Hs eq_refl Ht eq_refl).
  unfold datetime_new. now rewrite Hv.
Qed.

Lemma time_after_a_line_feed_is_not_read_witness :
  extract_datetime_from_filename
    (py "2023-04-15 a" ++ "010" :: py "143005.jpg")
  = Some (mk_datetime 2023 4 15 0 0 0).
Proof.
  apply (time_after_a_line_feed_is_not_read
           [] (py "2023-04-15") (py " a") (py "143005.jpg")
           (py "2023") (py "04") (py "15")).
  - exists (py "-"), (py "-"). repeat split; reflexivity.
  - intros i Hi. simpl in Hi. lia.
  - intros i Hi. do 3 (destruct i as [| i]; [reflexivity |]).
    simpl in Hi. lia.
  - reflexivity.
Defined.

(** * More of the processor *)

Section MoreProcessor.

Variable W : Type.
Variable sys : OS W.

(** ** The body of the loop is one of its seven paths *)

Lemma place_inv (cfg : config) (a b : str) (st st2 : state W)
  (ev : list event) (r : unit + exn) :
  place sys cfg a b st = (ev, st2, r) ->
  ev = placement_calls cfg a b /\ stats st2 = stats st /\
  ((r = inl tt /\ placed sys cfg a b (world st) (world st2)) \/
   (r = inr OSError /\ in_place cfg = false /\
    (if move cfg then sys_move sys (world st) a b
     else sys_copy2 sys (world st) a b) = (world st2, false))).
Proof.
  unfold place, placement_calls, placed, shutil_move, shutil_copy2, call, ret.
  destruct (in_place cfg); simpl.
  - intro H. injection H as <- <- <-. tauto.
  - destruct (move cfg).
    + destruct (sys_move sys (world st) a b) as [w [|]];
        intro H; injection H as <- <- <-; simpl; tauto.
    + destruct (sys_copy2 sys (world st) a b) as [w [|]];
        intro H; injection H as <- <- <-; simpl; tauto.
Qed.

(** The write step in one equation. *)
Lemma write_metadata_run (cfg : config) (exif_date out : str) (has : bool)
  (w2 : W) (s : Stats) :
  write_metadata sys cfg exif_date out has (mk_state w2 s)
  = match sys_run sys w2 (write_command exif_date out) with
    | (w3, Some done) =>
        ([Run (write_command exif_date out) true],
         mk_state w3 (incr (written_key cfg has (returncode done)) s),
         inl tt)
    | (w3, None) =>
        ([Run (write_command exif_date out) true], mk_state w3 s,
         inr OSError)
    end.
Proof.
  cbv [write_metadata try_except bind subprocess_run bump written_key].
  cbn [world stats andb].
  destruct (sys_run sys w2 (write_command exif_date out)) as [w3 [done |]];
    [| reflexivity].
  destruct (returncode done =? 0)%Z; cbn [negb is_CalledProcessError];
    [| reflexivity].
  destruct (has && replace_old_metadata cfg); reflexivity.
Qed.

Lemma process_entry_run (cfg : config) (filename : str)
  (st st' : state W) (ev : list event) (r : unit + exn) :
  process_entry sys cfg filename st = (ev, st', r) ->
  entry_run sys cfg filename st ev st' r.
Proof.
  intro H.
  destruct (output_path cfg filename) as [out |] eqn:Hout.
  2:{ revert H. cbv [process_entry bind]. cbn [bump].
      rewrite output_file_of_spec, Hout. intro H.
      injection H as <- <- <-. now apply run_no_destination. }
  destruct (extract_datetime_from_filename filename) as [date_obj |] eqn:Hd.
  2:{ revert H. cbv [process_entry bind]. cbn [bump].
      rewrite output_file_of_spec, Hout, Hd. intro H.
      injection H as <- <- <-. now apply run_no_date with (out := out). }
  destruct (sys_run sys (world st)
              (check_command (os_path_join (directory cfg) filename)))
    as [w1 [result |]] eqn:Hq.
  2:{ revert H. cbv [process_entry bind]. cbn [bump].
      rewrite output_file_of_spec, Hout, Hd.
      cbv [subprocess_run]. cbn [world stats]. rewrite Hq.
      intro H. injection H as <- <- <-.
      eapply run_query_not_started; eassumption. }
  rewrite (process_entry_dated W sys cfg filename out date_obj st w1 result
             Hout Hd Hq) in H.
  cbv zeta in H.
  destruct (truthy (Some (strip (stdout result)))
            && negb (replace_old_metadata cfg)) eqn:Hskip.
  { injection H as <- <- <-.
    apply andb_true_iff in Hskip. destruct Hskip as [Hhas Hrep].
    apply negb_true_iff in Hrep.
    eapply run_skipped; eassumption. }
  assert (Hreach : truthy (Some (strip (stdout result))) = true ->
                   replace_old_metadata cfg = true).
  { intro Hhas. rewrite Hhas in Hskip.
    destruct (replace_old_metadata cfg); [reflexivity | discriminate]. }
  destruct (place sys cfg (os_path_join (directory cfg) filename) out
              (mk_state w1 (incr total_files (stats st))))
    as [[evp [w2 s2]] rp] eqn:Hp.
  destruct (place_inv _ _ _ _ _ _ _ Hp)
    as (Eev & Est & [[-> Hpl] | (-> & Hip & Hfail)]);
    cbn [world stats] in *; subst s2 evp.
  - rewrite write_metadata_run in H.
    destruct (sys_run sys w2
                (write_command (strftime date_obj (py "%Y:%m:%d 00:00:00"))
                               out))
      as [w3 [done |]] eqn:Hw; injection H as <- <- <-.
    + eapply run_written; eassumption.
    + eapply run_write_not_started; eassumption.
  - injection H as <- <- <-.
    replace (Run (check_command (os_path_join (directory cfg) filename)) false
               :: placement_calls cfg
                    (os_path_join (directory cfg) filename) out)
      with (firstn 2 (entry_calls cfg filename out date_obj)).
    + eapply run_not_placed; eassumption.
    + unfold entry_calls, placement_calls. rewrite Hip.
      destruct (move cfg); reflexivity.
Qed.

Lemma for_each_run (cfg : config) (names : list str) :
  forall (st st' : state W) (ev : list event) (r : unit + exn),
    for_each names (process_entry sys cfg) st = (ev, st', r) ->
    loop_run sys cfg names st ev st' r.
Proof.
  induction names as [| f names IH]; intros st st' ev r H.
  - injection H as <- <- <-. apply loop_done.
  - cbn [for_each] in H. unfold bind at 1 in H.
    destruct (process_entry sys cfg f st) as [[ev1 st1] [[] | e]] eqn:E1.
    + destruct (for_each names (process_entry sys cfg) st1)
        as [[ev2 st2] r2] eqn:E2.
      injection H as <- <- <-.
      apply loop_next with (st1 := st1).
      * now apply process_entry_run.
      * now apply IH.
    + injection H as <- <- <-. apply loop_raise. now apply process_entry_run.
Qed.

(** [process_images], step by step. *)
Lemma run_process_images_steps (cfg : config) (w : W) :
  run_process_images sys cfg w =
  if makedirs_ok sys cfg w then
    match sys_listdir sys (world_at_listing sys cfg w) (directory cfg) with
    | (w1, Some names) =>
        let '(ev, st, r) :=
          for_each names (process_entry sys cfg) (mk_state w1 zero_stats) in
        (preparation_calls cfg ++ Listdir (directory cfg) :: ev, st,
         match r with inl _ => inl (stats st) | inr e => inr e end)
    | (w1, None) =>
        (preparation_calls cfg ++ [Listdir (directory cfg)],
         mk_state w1 zero_stats, inr OSError)
    end
  else
    (preparation_calls cfg,
     mk_state (world_at_listing sys cfg w) zero_stats, inr OSError).
Proof.
  unfold run_process_images, process_images, makedirs_ok, world_at_listing,
    preparation_calls.
  assert (G : forall (ev0 : list event) (w0 : W),
            (let '(ev2, st2, r2) :=
               (bind new_stats (fun _ =>
                bind (os_listdir sys (directory cfg)) (fun names =>
                bind (for_each names (process_entry sys cfg))
                     (fun _ => read_stats)))) (mk_state w0 zero_stats) in
             (ev0 ++ ev2, st2, r2))
            = match sys_listdir sys w0 (directory cfg) with
              | (w1, Some names) =>
                  let '(ev, st, r) :=
                    for_each names (process_entry sys cfg)
                             (mk_state w1 zero_stats) in
                  (ev0 ++ Listdir (directory cfg) :: ev, st,
                   match r with inl _ => inl (stats st) | inr e => inr e end)
              | (w1, None) =>
                  (ev0 ++ [Listdir (directory cfg)],
                   mk_state w1 zero_stats, inr OSError)
              end).
  { intros ev0 w0. unfold bind at 1. cbn [new_stats].
    unfold bind at 1. unfold os_listdir at 1. cbn [world stats].
    destruct (sys_listdir sys w0 (directory cfg)) as [w1 [names |]];
      [| reflexivity].
    unfold bind at 1.
    destruct (for_each names (process_entry sys cfg) (mk_state w1 zero_stats))
      as [[ev st] [[] | e]]; cbn [read_stats app];
      [rewrite app_nil_r |]; reflexivity. }
  destruct (negb (in_place cfg) && truthy (processed_dir cfg)).
  - destruct (processed_dir cfg) as [p |].
    + unfold bind at 1. unfold os_makedirs at 1, call at 1. cbn [world stats].
      destruct (sys_makedirs sys w p) as [w0 [|]]; cbn [fst snd];
        [| reflexivity].
      apply (G [Makedirs p] w0).
    + unfold bind at 1. cbn [ret]. apply (G [] w).
  - unfold bind at 1. cbn [ret]. apply (G [] w).
Qed.

(** The paths are all there is: a path of the relation is a run of the
    body. *)
Lemma entry_run_complete (cfg : config) (filename : str)
  (st st' : state W) (ev : list event) (r : unit + exn) :
  entry_run sys cfg filename st ev st' r ->
  process_entry sys cfg filename st = (ev, st', r).
Proof.
  intro R.
  destruct R as [Hout | out Hout Hd | out d w1 Hout Hd Hq
                 | out d w1 result Hout Hd Hq Hhas Hrep
                 | out d w1 result w2 Hout Hd Hq Hreach Hip Hfail
                 | out d w1 result w2 w3 Hout Hd Hq Hreach Hpl Hw
                 | out d w1 result w2 w3 done Hout Hd Hq Hreach Hpl Hw].
  - cbv [process_entry bind]. cbn [bump].
    rewrite output_file_of_spec, Hout. reflexivity.
  - cbv [process_entry bind]. cbn [bump].
    rewrite output_file_of_spec, Hout, Hd. reflexivity.
  - cbv [process_entry bind]. cbn [bump].
    rewrite output_file_of_spec, Hout, Hd.
    cbv [subprocess_run]. cbn [world stats]. rewrite Hq. reflexivity.
  - rewrite (process_entry_dated W sys cfg filename out d st w1 result
               Hout Hd Hq).
    cbv zeta. rewrite Hhas, Hrep. reflexivity.
  - rewrite (process_entry_dated W sys cfg filename out d st w1 result
               Hout Hd Hq).
    cbv zeta.
    assert (E : truthy (Some (strip (stdout result)))
                && negb (replace_old_metadata cfg) = false).
    { destruct (truthy (Some (strip (stdout result))));
        [rewrite Hreach by reflexivity |]; reflexivity. }
    rewrite E.
    unfold place, shutil_move, shutil_copy2, call, entry_calls,
      placement_calls.
    rewrite Hip. cbn [negb world stats].
    destruct (move cfg); cbv iota in Hfail; cbn [world stats];
      rewrite Hfail; reflexivity.
  - rewrite (process_entry_dated W sys cfg filename out d st w1 result
               Hout Hd Hq).
    cbv zeta.
    assert (E : truthy (Some (strip (stdout result)))
                && negb (replace_old_metadata cfg) = false).
    { destruct (truthy (Some (strip (stdout result))));
        [rewrite Hreach by reflexivity |]; reflexivity. }
    rewrite E.
    assert (Hp : place sys cfg (os_path_join (directory cfg) filename) out
                   (mk_state w1 (incr total_files (stats st)))
                 = (placement_calls cfg
                      (os_path_join (directory cfg) filename) out,
                    mk_state w2 (incr total_files (stats st)), inl tt)).
    { unfold placed in Hpl.
      unfold place, shutil_move, shutil_copy2, call, placement_calls, ret.
      destruct (in_place cfg); cbn [negb world stats].
      - now subst w2.
      - destruct (move cfg); cbv iota in Hpl; cbn [world stats];
          rewrite Hpl; reflexivity. }
    rewrite Hp, write_metadata_run, Hw. reflexivity.
  - rewrite (process_entry_dated W sys cfg filename out d st w1 result
               Hout Hd Hq).
    cbv zeta.
    assert (E : truthy (Some (strip (stdout result)))
                && negb (replace_old_metadata cfg) = false).
    { destruct (truthy (Some (strip (stdout result))));
        [rewrite Hreach by reflexivity |]; reflexivity. }
    rewrite E.
    assert (Hp : place sys cfg (os_path_join (directory cfg) filename) out
                   (mk_state w1 (incr total_files (stats st)))
                 = (placement_calls cfg
                      (os_path_join (directory cfg) filename) out,
                    mk_state w2 (incr total_files (stats st)), inl tt)).
    { unfold placed in Hpl.
      unfold place, shutil_move, shutil_copy2, call, placement_calls, ret.
      destruct (in_place cfg); cbn [negb world stats].
      - now subst w2.
      - destruct (move cfg); cbv iota in Hpl; cbn [world stats];
          rewrite Hpl; reflexivity. }
    rewrite Hp, write_metadata_run, Hw. reflexivity.
Qed.

Lemma for_each_app (cfg : config) (before after : list str) :
  forall (st0 st : state W) (ev0 : list event),
    for_each before (process_entry sys cfg) st0 = (ev0, st, inl tt) ->
    for_each (before ++ after) (process_entry sys cfg) st0
    = let '(ev, st', r) := for_each after (process_entry sys cfg) st in
      (ev0 ++ ev, st', r).
Proof.
  induction before as [| f before IH]; intros st0 st ev0 H.
  - injection H as <- <-. simpl.
    destruct (for_each after (process_entry sys cfg) st0) as [[ev st'] r].
    reflexivity.
  - cbn [for_each app] in *. unfold bind at 1 in H. unfold bind at 1.
    destruct (process_entry sys cfg f st0) as [[ev1 st1] [[] | e]];
      [| discriminate].
    destruct (for_each before (process_entry sys cfg) st1)
      as [[ev2 st2] r2] eqn:E2.
    injection H as <- -> ->.
    rewrite (IH _ _ _ E2).
    destruct (for_each after (process_entry sys cfg) st) as [[ev st'] r].
    now rewrite app_assoc.
Qed.

(** An exception in the body, after the names before it went through,
    ends [process_images]: the names after it are not looked at. *)
Lemma run_raises (cfg : config) (w w1 : W) (before rest : list str)
  (filename : str) (ev0 ev1 : list event) (st st1 : state W) (e : exn) :
  makedirs_ok sys cfg w = true ->
  sys_listdir sys (world_at_listing sys cfg w) (directory cfg)
  = (w1, Some (before ++ filename :: rest)) ->
  for_each before (process_entry sys cfg) (mk_state w1 zero_stats)
  = (ev0, st, inl tt) ->
  entry_run sys cfg filename st ev1 st1 (inr e) ->
  run_process_images sys cfg w
  = (preparation_calls cfg ++ Listdir (directory cfg) :: ev0 ++ ev1,
     st1, inr e).
Proof.
  intros Hmk Hls Hbefore Hrun.
  rewrite run_process_images_steps, Hmk, Hls.
  rewrite (for_each_app cfg before (filename :: rest) _ _ _ Hbefore).
  cbn [for_each]. unfold bind at 1.
  rewrite (entry_run_complete _ _ _ _ _ _ Hrun). reflexivity.
Qed.

(** ** What holds along the loop *)

Lemma count_app (p : event -> bool) (a b : list event) :
  count p (a ++ b) = (count p a + count p b)%Z.
Proof. unfold count. rewrite filter_app, length_app. lia. Qed.

(** Every call of the loop is one of the calls of a listed name that gives
    a date. *)
Lemma loop_events (cfg : config) (names : list str) (st st' : state W)
  (ev : list event) (r : unit + exn) :
  loop_run sys cfg names st ev st' r ->
  forall e, In e ev ->
    exists filename out date_obj,
      In filename names /\
      output_path cfg filename = Some out /\
      extract_datetime_from_filename filename = Some date_obj /\
      In e (entry_calls cfg filename out date_obj).
Proof.
  assert (G : forall f st ev st' r e,
            entry_run sys cfg f st ev st' r -> In e ev ->
            exists out date_obj,
              output_path cfg f = Some out /\
              extract_datetime_from_filename f = Some date_obj /\
              In e (entry_calls cfg f out date_obj)).
  { intros f s1 ev1 s2 r1 e R Hin.
    destruct R as [Hout | out Hout Hd | out d w1 Hout Hd Hq
                   | out d w1 result Hout Hd Hq Hhas Hrep
                   | out d w1 result w2 Hout Hd Hq Hreach Hip Hfail
                   | out d w1 result w2 w3 Hout Hd Hq Hreach Hpl Hw
                   | out d w1 result w2 w3 done Hout Hd Hq Hreach Hpl Hw];
      try (destruct Hin; fail);
      exists out, d; (split; [exact Hout | split; [exact Hd |]]);
      try exact Hin;
      match type of Hin with
      | In _ (firstn ?n ?l) =>
          rewrite <- (firstn_skipn n l); apply in_or_app; left; exact Hin
      end. }
  induction 1 as [s | f names s ev1 s1 ev2 s2 r R1 R2 IH
                  | f names s ev1 s1 e1 R1]; intros e Hin.
  - destruct Hin.
  - apply in_app_or in Hin. destruct Hin as [Hin | Hin].
    + destruct (G _ _ _ _ _ _ R1 Hin) as (out & d & H1 & H2 & H3).
      exists f, out, d. simpl. tauto.
    + destruct (IH e Hin) as (f' & out & d & H0 & H1 & H2 & H3).
      exists f', out, d. simpl. tauto.
  - destruct (G _ _ _ _ _ _ R1 Hin) as (out & d & H1 & H2 & H3).
    exists f, out, d. simpl. tauto.
Qed.

(** [replace_old_metadata] decides which of two counters can move. *)
Lemma loop_replace (cfg : config) (names : list str) (st st' : state W)
  (ev : list event) (r : unit + exn) :
  loop_run sys cfg names st ev st' r ->
  (replace_old_metadata cfg = true ->
   get files_skipped_existing_metadata (stats st')
   = get files_skipped_existing_metadata (stats st)) /\
  (replace_old_metadata cfg = false ->
   get files_metadata_replaced (stats st')
   = get files_metadata_replaced (stats st)).
Proof.
  assert (G : forall f st ev st' r,
            entry_run sys cfg f st ev st' r ->
            (replace_old_metadata cfg = true ->
             get files_skipped_existing_metadata (stats st')
             = get files_skipped_existing_metadata (stats st)) /\
            (replace_old_metadata cfg = false ->
             get files_metadata_replaced (stats st')
             = get files_metadata_replaced (stats st))).
  { intros f s1 ev1 s2 r1 R.
    destruct R as [Hout | out Hout Hd | out d w1 Hout Hd Hq
                   | out d w1 result Hout Hd Hq Hhas Hrep
                   | out d w1 result w2 Hout Hd Hq Hreach Hip Hfail
                   | out d w1 result w2 w3 Hout Hd Hq Hreach Hpl Hw
                   | out d w1 result w2 w3 done Hout Hd Hq Hreach Hpl Hw];
      cbn [stats]; try (destruct (stats s1); simpl; split; congruence).
    unfold written_key.
    destruct (stats s1), (returncode done =? 0)%Z,
      (truthy (Some (strip (stdout result)))),
      (replace_old_metadata cfg); simpl; split; congruence. }
  induction 1 as [s | f names s ev1 s1 ev2 s2 r R1 R2 IH
                  | f names s ev1 s1 e1 R1].
  - split; reflexivity.
  - destruct (G _ _ _ _ _ R1) as [A B]. destruct IH as [A' B'].
    split; intro E; [rewrite (A' E), (A E) | rewrite (B' E), (B E)];
      reflexivity.
  - exact (G _ _ _ _ _ R1).
Qed.

(** The exceptions that leave the loop: [TypeError] for want of a
    destination, [OSError]; never [CalledProcessError]. *)
Lemma loop_exceptions (cfg : config) (names : list str) (st st' : state W)
  (ev : list event) (e : exn) :
  loop_run sys cfg names st ev st' (inr e) ->
  (e = TypeError /\ in_place cfg = false /\ processed_dir cfg = None)
  \/ e = OSError.
Proof.
  assert (G : forall f st ev st',
            entry_run sys cfg f st ev st' (inr e) ->
            (e = TypeError /\ in_place cfg = false
             /\ processed_dir cfg = None) \/ e = OSError).
  { intros f s1 ev1 s2 R. inversion R; subst; try (now right).
    left. unfold output_path in *.
    destruct (in_place cfg); [discriminate |].
    destruct (processed_dir cfg); [discriminate | tauto]. }
  intro R. remember (inr e : unit + exn) as r eqn:Er.
  induction R as [s | f names s ev1 s1 ev2 s2 r R1 R2 IH
                  | f names s ev1 s1 e1 R1].
  - discriminate.
  - exact (IH Er G).
  - injection Er as ->. exact (G _ _ _ _ R1).
Qed.

(** The calls and the counters of a loop that went through. *)
Lemma loop_accounting (cfg : config) (names : list str) (st st' : state W)
  (ev : list event) :
  loop_run sys cfg names st ev st' (inl tt) ->
  let s := stats st in
  let s' := stats st' in
  (count is_query ev
   = (get total_files s' - get total_files s)
     - (get files_skipped_no_date s' - get files_skipped_no_date s))%Z /\
  (count is_write ev
   = (get files_changed s' - get files_changed s)
     + (get files_metadata_replaced s' - get files_metadata_replaced s)
     + (get files_error s' - get files_error s))%Z /\
  count is_placement ev
  = (if in_place cfg then 0 else count is_write ev)%Z.
Proof.
  assert (G : forall f st ev st',
            entry_run sys cfg f st ev st' (inl tt) ->
            let s := stats st in
            let s' := stats st' in
            (count is_query ev
             = (get total_files s' - get total_files s)
               - (get files_skipped_no_date s'
                  - get files_skipped_no_date s))%Z /\
            (count is_write ev
             = (get files_changed s' - get files_changed s)
               + (get files_metadata_replaced s'
                  - get files_metadata_replaced s)
               + (get files_error s' - get files_error s))%Z /\
            count is_placement ev
            = (if in_place cfg then 0 else count is_write ev)%Z).
  { intros f s1 ev1 s2 R. inversion R; subst; cbn [stats].
    - destruct (stats s1), (in_place cfg); unfold count; simpl;
        repeat split; lia.
    - destruct (stats s1), (in_place cfg); unfold count; simpl;
        repeat split; lia.
    - unfold entry_calls, placement_calls, written_key.
      destruct (stats s1), (in_place cfg), (move cfg),
        (returncode done =? 0)%Z,
        (truthy (Some (strip (stdout result)))
         && replace_old_metadata cfg);
        unfold count; simpl; repeat split; lia. }
  intro R. remember (inl tt : unit + exn) as r eqn:Er.
  induction R as [s | f names s ev1 s1 ev2 s2 r R1 R2 IH
                  | f names s ev1 s1 e1 R1].
  - unfold count. simpl. destruct (in_place cfg); repeat split; lia.
  - subst r. specialize (IH eq_refl G).
    destruct (G _ _ _ _ R1) as (A & B & C). destruct IH as (A' & B' & C').
    cbv zeta in *. rewrite !count_app.
    destruct (in_place cfg); repeat split; lia.
  - discriminate.
Qed.

(** The three ways [process_images] ends. *)
Lemma run_cases (cfg : config) (w : W) (ev : list event) (st : state W)
  (r : Stats + exn) :
  run_process_images sys cfg w = (ev, st, r) ->
  (ev = preparation_calls cfg /\ r = inr OSError) \/
  (ev = preparation_calls cfg ++ [Listdir (directory cfg)]
   /\ r = inr OSError) \/
  (exists w1 names ev' r',
     sys_listdir sys (world_at_listing sys cfg w) (directory cfg)
     = (w1, Some names) /\
     loop_run sys cfg names (mk_state w1 zero_stats) ev' st r' /\
     ev = preparation_calls cfg ++ Listdir (directory cfg) :: ev' /\
     r = match r' with inl _ => inl (stats st) | inr e => inr e end).
Proof.
  rewrite run_process_images_steps.
  destruct (makedirs_ok sys cfg w).
  - destruct (sys_listdir sys (world_at_listing sys cfg w) (directory cfg))
      as [w1 [names |]].
    + destruct (for_each names (process_entry sys cfg)
                  (mk_state w1 zero_stats)) as [[ev' st'] r'] eqn:E.
      intro H. injection H as <- <- <-. right. right.
      exists w1, names, ev', r'.
      split; [reflexivity | split; [| split; reflexivity]].
      now apply for_each_run.
    + intro H. injection H as <- <- <-. right. left. tauto.
  - intro H. injection H as <- <- <-. left. tauto.
Qed.

Lemma preparation_is_makedirs (cfg : config) (e : event) :
  In e (preparation_calls cfg) ->
  exists p, e = Makedirs p /\ processed_dir cfg = Some p.
Proof.
  unfold preparation_calls.
  destruct (negb (in_place cfg) && truthy (processed_dir cfg));
    [| intros []].
  destruct (processed_dir cfg) as [p |]; [| intros []].
  intros [<- | []]. exists p. tauto.
Qed.

Lemma count_preparation (cfg : config) (p : event -> bool) (ev : list event) :
  (forall path, p (Makedirs path) = false) ->
  (forall path, p (Listdir path) = false) ->
  count p (preparation_calls cfg ++ Listdir (directory cfg) :: ev)
  = count p ev.
Proof.
  intros Hm Hl. unfold preparation_calls.
  destruct (negb (in_place cfg) && truthy (processed_dir cfg));
    [destruct (processed_dir cfg) |];
    unfold count; simpl; rewrite ?Hm, Hl; reflexivity.
Qed.

(** ** Properties of the body of the loop *)

(** The calls made for one name come in one order: the query on the input
    file, then the copy or the move, then the write on the output file; the
    body stops somewhere along this list and makes no other call. *)
Theorem calls_of_a_file_come_in_order
  (cfg : config) (filename : str) (st st' : state W) (ev : list event)
  (r : unit + exn) :
  process_entry sys cfg filename st = (ev, st', r) ->
  ev = [] \/
  exists (out : str) (date_obj : datetime) (n : nat),
    output_path cfg filename = Some out /\
    extract_datetime_from_filename filename = Some date_obj /\
    ev = firstn n (entry_calls cfg filename out date_obj).
Proof.
  intro H. apply process_entry_run in H.
  destruct H as [Hout | out Hout Hd | out d w1 Hout Hd Hq
                 | out d w1 result Hout Hd Hq Hhas Hrep
                 | out d w1 result w2 Hout Hd Hq Hreach Hip Hfail
                 | out d w1 result w2 w3 Hout Hd Hq Hreach Hpl Hw
                 | out d w1 result w2 w3 done Hout Hd Hq Hreach Hpl Hw];
    try (now left); right; exists out, d.
  - exists 1%nat. tauto.
  - exists 1%nat. tauto.
  - exists 2%nat. tauto.
  - exists (length (entry_calls cfg filename out d)).
    rewrite firstn_all. tauto.
  - exists (length (entry_calls cfg filename out d)).
    rewrite firstn_all. tauto.
Qed.

(** ** Properties of a run *)

(** A copy or a move that fails ends [process_images] with [OSError]: the
    statistics are not returned and the names that follow in the listing are
    not looked at. *)
Theorem failed_placement_ends_the_run
  (cfg : config) (w w0 w1 w2 : W) (before rest : list str) (filename out : str)
  (date_obj : datetime) (ev0 : list event) (st : state W)
  (result : CompletedProcess) :
  let input_file := os_path_join (directory cfg) filename in
  makedirs_ok sys cfg w = true ->
  sys_listdir sys (world_at_listing sys cfg w) (directory cfg)
  = (w0, Some (before ++ filename :: rest)) ->
  for_each before (process_entry sys cfg) (mk_state w0 zero_stats)
  = (ev0, st, inl tt) ->
  output_path cfg filename = Some out ->
  extract_datetime_from_filename filename = Some date_obj ->
  sys_run sys (world st) (check_command input_file) = (w1, Some result) ->
  (truthy (Some (strip (stdout result))) = true ->
   replace_old_metadata cfg = true) ->
  in_place cfg = false ->
  (if move cfg then sys_move sys w1 input_file out
   else sys_copy2 sys w1 input_file out) = (w2, false) ->
  run_process_images sys cfg w
  = (preparation_calls cfg ++ Listdir (directory cfg)
       :: ev0 ++ [Run (check_command input_file) false;
                  if move cfg then Move input_file out
                  else Copy2 input_file out],
     mk_state w2 (incr total_files (stats st)), inr OSError).
Proof.
  intros input_file Hmk Hls Hbefore Hout Hd Hq Hreach Hip Hfail.
  replace [Run (check_command input_file) false;
           if move cfg then Move input_file out else Copy2 input_file out]
    with (firstn 2 (entry_calls cfg filename out date_obj)).
  - apply (run_raises cfg w w0 before rest filename _ _ st _ _ Hmk Hls
             Hbefore).
    eapply run_not_placed; eassumption.
  - unfold entry_calls, placement_calls. rewrite Hip.
    destruct (move cfg); reflexivity.
Qed.

(** A write that cannot be started (the tool is not there) is not the
    failure the body catches: [process_images] ends with [OSError] after the
    file was copied or moved, without counting it as an error. *)
Theorem write_not_started_ends_the_run
  (cfg : config) (w w0 w1 w2 w3 : W) (before rest : list str)
  (filename out : str) (date_obj : datetime) (ev0 : list event)
  (st : state W) (result : CompletedProcess) :
  let input_file := os_path_join (directory cfg) filename in
  makedirs_ok sys cfg w = true ->
  sys_listdir sys (world_at_listing sys cfg w) (directory cfg)
  = (w0, Some (before ++ filename :: rest)) ->
  for_each before (process_entry sys cfg) (mk_state w0 zero_stats)
  = (ev0, st, inl tt) ->
  output_path cfg filename = Some out ->
  extract_datetime_from_filename filename = Some date_obj ->
  sys_run sys (world st) (check_command input_file) = (w1, Some result) ->
  (truthy (Some (strip (stdout result))) = true ->
   replace_old_metadata cfg = true) ->
  placed sys cfg input_file out w1 w2 ->
  sys_run sys w2
    (write_command (strftime date_obj (py "%Y:%m:%d 00:00:00")) out)
  = (w3, None) ->
  run_process_images sys cfg w
  = (preparation_calls cfg ++ Listdir (directory cfg)
       :: ev0 ++ entry_calls cfg filename out date_obj,
     mk_state w3 (incr total_files (stats st)), inr OSError).
Proof.
  intros input_file Hmk Hls Hbefore Hout Hd Hq Hreach Hpl Hw.
  apply (run_raises cfg w w0 before rest filename _ _ st _ _ Hmk Hls Hbefore).
  eapply run_write_not_started; eassumption.
Qed.

Lemma for_each_ext (names : list str) (body1 body2 : str -> M W unit) :
  (forall f st, body1 f st = body2 f st) ->
  forall st, for_each names body1 st = for_each names body2 st.
Proof.
  intro H. induction names as [| f names IH]; intro st; [reflexivity |].
  cbn [for_each]. unfold bind. rewrite H.
  destruct (body2 f st) as [[ev1 st1] [[] | e]]; [| reflexivity].
  now rewrite IH.
Qed.

(** In place, the destination directory and the move flag play no part:
    two runs that differ only in them are the same run, and a run calls
    nothing but the listing and the tool. *)
Theorem in_place_ignores_destination_and_move (cfg : config) (w : W) :
  in_place cfg = true ->
  (forall cfg' : config,
     in_place cfg' = true -> directory cfg' = directory cfg ->
     replace_old_metadata cfg' = replace_old_metadata cfg ->
     run_process_images sys cfg' w = run_process_images sys cfg w) /\
  (forall ev st r,
     run_process_images sys cfg w = (ev, st, r) ->
     forall e, In e ev ->
       e = Listdir (directory cfg) \/ exists command check, e = Run command check).
Proof.
  intro Hip. split.
  - intros cfg' Hip' Hdir Hrep.
    rewrite !run_process_images_steps.
    unfold makedirs_ok, world_at_listing, preparation_calls.
    rewrite Hip, Hip', Hdir. cbn [negb andb].
    destruct (sys_listdir sys w (directory cfg)) as [w1 [names |]];
      [| reflexivity].
    rewrite (for_each_ext names (process_entry sys cfg')
               (process_entry sys cfg)); [reflexivity |].
    intros f st.
    cbv [process_entry output_file_of place write_metadata].
    rewrite Hip, Hip', Hdir, Hrep. reflexivity.
  - intros ev st r H e Hin.
    destruct (run_cases _ _ _ _ _ H)
      as [[-> _] | [[-> _] | (w1 & names & ev' & r' & _ & L & -> & _)]];
      unfold preparation_calls in Hin; rewrite Hip in Hin;
      cbn [negb andb app] in Hin.
    + destruct Hin.
    + destruct Hin as [<- | []]. now left.
    + destruct Hin as [<- | Hin]; [now left |].
      destruct (loop_events _ _ _ _ _ _ L e Hin)
        as (f & out & d & _ & _ & _ & Hc).
      unfold entry_calls, placement_calls in Hc. rewrite Hip in Hc.
      right. destruct Hc as [<- | [<- | []]]; eauto.
Qed.

(** [replace_old_metadata] keeps one of two counters at zero: when it is
    true no file is skipped for the metadata it has, and when it is false no
    metadata is replaced. *)
Theorem replace_flag_keeps_a_counter_at_zero
  (cfg : config) (w : W) (ev : list event) (st : state W) (s : Stats) :
  run_process_images sys cfg w = (ev, st, inl s) ->
  (replace_old_metadata cfg = true ->
   get files_skipped_existing_metadata s = 0%Z) /\
  (replace_old_metadata cfg = false ->
   get files_metadata_replaced s = 0%Z).
Proof.
  intro H.
  destruct (run_cases _ _ _ _ _ H)
    as [[_ E] | [[_ E] | (w1 & names & ev' & r' & _ & L & _ & E)]];
    try discriminate E.
  destruct r' as [[] | e]; [| discriminate E]. injection E as ->.
  exact (loop_replace _ _ _ _ _ _ L).
Qed.

(** A run that returns has counted every name of the listing, and only
    them. *)
Theorem total_files_is_the_length_of_the_listing
  (cfg : config) (w w1 : W) (names : list str) (ev : list event)
  (st : state W) (s : Stats) :
  sys_listdir sys (world_at_listing sys cfg w) (directory cfg)
  = (w1, Some names) ->
  run_process_images sys cfg w = (ev, st, inl s) ->
  get total_files s = Z.of_nat (length names).
Proof.
  intros Hls. rewrite run_process_images_steps, Hls.
  destruct (makedirs_ok sys cfg w); [| discriminate].
  destruct (for_each names (process_entry sys cfg) (mk_state w1 zero_stats))
    as [[ev' st'] [[] | e]] eqn:E; [| discriminate].
  intro H. injection H as _ _ <-.
  destruct (for_each_counts W sys cfg names _ _ _ E) as [T _].
  rewrite T. reflexivity.
Qed.

(** The destination directory is created before the listing: when the
    source directory cannot be listed, [process_images] raises [OSError]
    and leaves the destination directory behind. *)
Theorem destination_is_created_before_the_listing
  (cfg : config) (w w0 w1 : W) (c : ascii) (p : str) :
  in_place cfg = false -> processed_dir cfg = Some (c :: p) ->
  sys_makedirs sys w (c :: p) = (w0, true) ->
  sys_listdir sys w0 (directory cfg) = (w1, None) ->
  run_process_images sys cfg w
  = ([Makedirs (c :: p); Listdir (directory cfg)],
     mk_state w1 zero_stats, inr OSError).
Proof.
  intros Hip Hpd Hmk Hls.
  rewrite run_process_images_steps.
  unfold makedirs_ok, world_at_listing, preparation_calls.
  rewrite Hip, Hpd. cbn [negb andb truthy]. rewrite Hmk. cbn [fst snd].
  rewrite Hls. reflexivity.
Qed.

(** The calls of a run that returns are those its statistics tell: one
    query for each file but those without a date, one write for each file
    changed, replaced or in error, and, when not in place, one copy or move
    for each write. *)
Theorem calls_are_those_the_statistics_tell
  (cfg : config) (w : W) (ev : list event) (st : state W) (s : Stats) :
  run_process_images sys cfg w = (ev, st, inl s) ->
  (count is_query ev = get total_files s - get files_skipped_no_date s)%Z /\
  (count is_write ev
   = get files_changed s + get files_metadata_replaced s
     + get files_error s)%Z /\
  count is_placement ev = (if in_place cfg then 0 else count is_write ev)%Z.
Proof.
  intro H.
  destruct (run_cases _ _ _ _ _ H)
    as [[_ E] | [[_ E] | (w1 & names & ev' & r' & _ & L & -> & E)]];
    try discriminate E.
  destruct r' as [[] | e]; [| discriminate E]. injection E as ->.
  destruct (loop_accounting _ _ _ _ _ L) as (A & B & C).
  rewrite !count_preparation by reflexivity.
  cbv zeta in A, B. unfold get in *.
  cbn [stats zero_stats n_total_files n_files_changed
       n_files_skipped_no_date n_files_metadata_replaced n_files_error]
    in A, B.
  repeat split; [lia | lia | exact C].
Qed.

(** Every call of a run past the preparation and the listing belongs to a
    name of the listing that gives a date: a name without a date is never
    queried, copied, moved or written, and no path is touched but the input
    and output paths of the listed names. *)
Theorem calls_concern_the_dated_names_of_the_listing
  (cfg : config) (w w1 : W) (names : list str) (ev : list event)
  (st : state W) (r : Stats + exn) :
  sys_listdir sys (world_at_listing sys cfg w) (directory cfg)
  = (w1, Some names) ->
  run_process_images sys cfg w = (ev, st, r) ->
  forall e, In e ev ->
    In e (preparation_calls cfg) \/ e = Listdir (directory cfg) \/
    exists filename out date_obj,
      In filename names /\
      output_path cfg filename = Some out /\
      extract_datetime_from_filename filename = Some date_obj /\
      In e (entry_calls cfg filename out date_obj).
Proof.
  intros Hls H e Hin.
  destruct (run_cases _ _ _ _ _ H)
    as [[-> _] | [[-> _] | (w1' & names' & ev' & r' & Hls' & L & -> & _)]].
  - now left.
  - apply in_app_or in Hin. destruct Hin as [Hin | [<- | []]]; tauto.
  - rewrite Hls in Hls'. injection Hls' as <- <-.
    apply in_app_or in Hin. destruct Hin as [Hin | [<- | Hin]]; try tauto.
    right. right. exact (loop_events _ _ _ _ _ _ L e Hin).
Qed.

(** The failure of a write never leaves [process_images]: no run ends with
    [CalledProcessError], the query being run without [check] and the write
    inside the [try] that handles it.  And a run that ends with [TypeError]
    is one that has no destination directory though it is not in place. *)
Theorem exceptions_of_a_run
  (cfg : config) (w : W) (ev : list event) (st : state W) (e : exn) :
  run_process_images sys cfg w = (ev, st, inr e) ->
  e <> CalledProcessError /\
  (e = TypeError -> in_place cfg = false /\ processed_dir cfg = None).
Proof.
  intro H.
  assert (G : (e = TypeError /\ in_place cfg = false
               /\ processed_dir cfg = None) \/ e = OSError).
  { destruct (run_cases _ _ _ _ _ H)
      as [[_ E] | [[_ E] | (w1 & names & ev' & r' & _ & L & _ & E)]].
    - injection E as ->. now right.
    - injection E as ->. now right.
    - destruct r' as [[] | e']; [discriminate E |]. injection E as ->.
      exact (loop_exceptions _ _ _ _ _ _ L). }
  destruct G as [(-> & Hip & Hpd) | ->].
  - split; [discriminate | tauto].
  - split; [discriminate | discriminate].
Qed.

(** The script as it is configured: it creates
    [./Photos_All/Photos/processed] first, it cannot fail for want of a
    destination, it never moves a file, and it never skips a file for the
    metadata it has. *)
Theorem the_script_copies_and_replaces
  (w : W) (ev : list event) (st : state W) (r : Stats + exn) :
  main sys w = (ev, st, r) ->
  (exists ev', ev = Makedirs (py "./Photos_All/Photos/processed") :: ev') /\
  r <> inr TypeError /\
  (forall a b, ~ In (Move a b) ev) /\
  (forall s, r = inl s -> get files_skipped_existing_metadata s = 0%Z).
Proof.
  unfold main. intro H.
  destruct (run_cases _ _ _ _ _ H)
    as [[-> E] | [[-> E] | (w1 & names & ev' & r' & _ & L & -> & E)]].
  - repeat split.
    + eexists. reflexivity.
    + rewrite E. discriminate.
    + intros a b [Hin | []]. discriminate Hin.
    + intros s Hs. rewrite E in Hs. discriminate Hs.
  - repeat split.
    + eexists. reflexivity.
    + rewrite E. discriminate.
    + intros a b [Hin | [Hin | []]]; discriminate Hin.
    + intros s Hs. rewrite E in Hs. discriminate Hs.
  - repeat split.
    + eexists. reflexivity.
    + destruct r' as [[] | e]; rewrite E; [discriminate |].
      intro Habs. injection Habs as ->.
      destruct (loop_exceptions _ _ _ _ _ _ L) as [(_ & _ & Hn) | Hn];
        discriminate Hn.
    + intros a b [Hin | [Hin | Hin]]; try discriminate Hin.
      destruct (loop_events _ _ _ _ _ _ L _ Hin)
        as (f & out & d & _ & _ & _ & Hc).
      destruct Hc as [Hc | [Hc | [Hc | []]]]; discriminate Hc.
    + intros s Hs. rewrite E in Hs.
      destruct r' as [[] | e]; [| discriminate Hs]. injection Hs as <-.
      exact (proj1 (loop_replace _ _ _ _ _ _ L) eq_refl).
Qed.

(** ** From the name to the value written *)

Lemma digit_roundtrip (c : ascii) :
  is_digit c = true ->
  (0 <= digit_value c <= 9)%Z /\ digit_char (digit_value c) = c.
Proof.
  intro H. apply is_digit_cases in H. simpl in H.
  repeat (destruct H as [<- | H]; [split; [vm_compute; split; discriminate | reflexivity] |]).
  destruct H.
Qed.

(** Writing on [w] digits the number that [w] digits write gives them
    back. *)
Lemma zpad_py_int (x : str) :
  forall w : nat, digits_n w x = true -> zpad w (py_int x) = x.
Proof.
  induction x as [| c x IH] using rev_ind; intros w H.
  - apply digits_n_length in H. simpl in H. subst w. reflexivity.
  - apply digits_n_spec in H. destruct H as [Hl Hd].
    rewrite length_app in Hl. simpl in Hl.
    rewrite forallb_app in Hd. apply andb_true_iff in Hd.
    destruct Hd as [Hx Hc]. simpl in Hc. rewrite andb_true_r in Hc.
    destruct w as [| w]; [lia |].
    destruct (digit_roundtrip c Hc) as [Hr Hcc].
    rewrite py_int_snoc by exact Hc. cbn [zpad].
    replace ((10 * py_int x + digit_value c) / 10)%Z with (py_int x)
      by (apply Z.div_unique with (r := digit_value c); lia).
    replace ((10 * py_int x + digit_value c) mod 10)%Z with (digit_value c)
      by (apply Z.mod_unique with (q := py_int x); lia).
    rewrite Hcc, IH; [reflexivity |].
    apply digits_n_spec. split; [lia | exact Hx].
Qed.

(** The date written into the metadata is the date token of the name: for
    a name whose leftmost date token has the fields [ys], [ms] and [ds],
    every write sets both fields to the year [ys] writes, in decimal, then
    [:ms:ds 00:00:00] with the month and the day digit for digit those of
    the name.  From the year 1000 on the year too is [ys] digit for digit;
    before, it comes without the zeros [ys] starts with. *)
Theorem written_date_is_the_date_token_of_the_name
  (cfg : config) (pre tok post ys ms ds : str) (st st' : state W)
  (ev : list event) (r : unit + exn) (command : list str) :
  token 4 tok ys ms ds ->
  (forall i, (i < length pre)%nat ->
             date_rest (skipn i (pre ++ tok ++ post)) = None) ->
  process_entry sys cfg (pre ++ tok ++ post) st = (ev, st', r) ->
  In (Run command true) ev ->
  exists out,
    output_path cfg (pre ++ tok ++ post) = Some out /\
    command
    = write_command
        (decimal (py_int ys) ++ ":" :: ms ++ ":" :: ds ++ py " 00:00:00")
        out /\
    ((1000 <= py_int ys)%Z -> decimal (py_int ys) = ys).
Proof.
  intros Ht Hleft H Hin.
  destruct (process_entry_cases W sys _ _ _ _ _ _ H) as [Hev _].
  destruct (Hev _ Hin) as (out & Hout & [E | [E | [E | (dt & Hd & E)]]]);
    try discriminate E.
  exists out. split; [exact Hout |].
  assert (Ec : command
               = write_command (strftime dt (py "%Y:%m:%d 00:00:00")) out)
    by congruence.
  rewrite Ec, strftime_exif.
  destruct (leftmost_date_cases pre tok post ys ms ds Ht Hleft) as [Hbad Hok].
  destruct (valid_date (py_int ys) (py_int ms) (py_int ds)) eqn:Hv.
  - destruct (Hok eq_refl) as (dt' & Hd' & Hy & Hm & Hdd).
    assert (dt' = dt) by congruence. subst dt'.
    destruct Ht as (x1 & x2 & _ & Dy & _ & Dm & _ & Dd).
    rewrite Hy, Hm, Hdd.
    rewrite (zpad_py_int ms 2 Dm), (zpad_py_int ds 2 Dd).
    split; [reflexivity |].
    intro Hbig. apply valid_date_spec in Hv.
    rewrite decimal_four by lia. exact (zpad_py_int ys 4 Dy).
  - rewrite (Hbad eq_refl) in Hd. discriminate Hd.
Qed.

End MoreProcessor.

(** ** The properties at work in the demo worlds *)

Lemma calls_of_a_file_come_in_order_witness :
  [Run (check_command (py "in/IMG_20230417_tagged.jpg")) false] = [] \/
  exists (out : str) (date_obj : datetime) (n : nat),
    output_path demo_cfg_keep (py "IMG_20230417_tagged.jpg") = Some out /\
    extract_datetime_from_filename (py "IMG_20230417_tagged.jpg")
    = Some date_obj /\
    [Run (check_command (py "in/IMG_20230417_tagged.jpg")) false]
    = firstn n (entry_calls demo_cfg_keep (py "IMG_20230417_tagged.jpg")
                            out date_obj).
Proof.
  exact (calls_of_a_file_come_in_order unit demo_sys demo_cfg_keep
           (py "IMG_20230417_tagged.jpg") (mk_state tt zero_stats)
           (mk_state tt (mk_stats 1 0 0 1 0 0))
           [Run (check_command (py "in/IMG_20230417_tagged.jpg")) false]
           (inl tt) eq_refl).
Defined.

Lemma failed_placement_ends_the_run_witness :
  run_process_images demo_sys_readonly demo_cfg tt
  = ([Makedirs (py "out"); Listdir (py "in");
      Run (check_command (py "in/20230415_a.jpg")) false;
      Copy2 (py "in/20230415_a.jpg") (py "out/20230415_a.jpg")],
     mk_state tt (mk_stats 1 0 0 0 0 0), inr OSError).
Proof.
  refine (failed_placement_ends_the_run unit demo_sys_readonly demo_cfg
            tt tt tt tt [] (tl demo_names)
            (py "20230415_a.jpg") (py "out/20230415_a.jpg")
            (mk_datetime 2023 4 15 0 0 0) [] (mk_state tt zero_stats)
            (mk_completed 0 [] [])
            eq_refl eq_refl eq_refl eq_refl eq_refl eq_refl _ eq_refl
            eq_refl).
  discriminate.
Defined.

Lemma write_not_started_ends_the_run_witness :
  run_process_images demo_sys_no_write demo_cfg tt
  = ([Makedirs (py "out"); Listdir (py "in");
      Run (check_command (py "in/20230415_a.jpg")) false;
      Copy2 (py "in/20230415_a.jpg") (py "out/20230415_a.jpg");
      Run (write_command (py "2023:04:15 00:00:00")
                         (py "out/20230415_a.jpg")) true],
     mk_state tt (mk_stats 1 0 0 0 0 0), inr OSError).
Proof.
  refine (write_not_started_ends_the_run unit demo_sys_no_write demo_cfg
            tt tt tt tt tt [] (tl demo_names)
            (py "20230415_a.jpg") (py "out/20230415_a.jpg")
            (mk_datetime 2023 4 15 0 0 0) [] (mk_state tt zero_stats)
            (mk_completed 0 [] [])
            eq_refl eq_refl eq_refl eq_refl eq_refl eq_refl _ eq_refl
            eq_refl).
  discriminate.
Defined.

Lemma in_place_ignores_destination_and_move_witness :
  run_process_images demo_sys (mk_config (py "in") None false true true) tt
  = run_process_images demo_sys demo_cfg_in_place tt.
Proof.
  apply (proj1 (in_place_ignores_destination_and_move unit demo_sys
                  demo_cfg_in_place tt eq_refl));
    reflexivity.
Defined.

Lemma replace_flag_keeps_a_counter_at_zero_witness :
  (replace_old_metadata demo_cfg = true ->
   get files_skipped_existing_metadata (mk_stats 4 1 1 0 1 1) = 0%Z) /\
  (replace_old_metadata demo_cfg = false ->
   get files_metadata_replaced (mk_stats 4 1 1 0 1 1) = 0%Z).
Proof.
  assert (E : run_process_images demo_sys demo_cfg tt
              = (fst (fst (run_process_images demo_sys demo_cfg tt)),
                 snd (fst (run_process_images demo_sys demo_cfg tt)),
                 inl (mk_stats 4 1 1 0 1 1))) by reflexivity.
  exact (replace_flag_keeps_a_counter_at_zero unit demo_sys demo_cfg tt
           _ _ _ E).
Defined.

Lemma total_files_is_the_length_of_the_listing_witness :
  get total_files (mk_stats 4 1 1 0 1 1) = Z.of_nat (length demo_names).
Proof.
  assert (E : run_process_images demo_sys demo_cfg tt
              = (fst (fst (run_process_images demo_sys demo_cfg tt)),
                 snd (fst (run_process_images demo_sys demo_cfg tt)),
                 inl (mk_stats 4 1 1 0 1 1))) by reflexivity.
  exact (total_files_is_the_length_of_the_listing unit demo_sys demo_cfg
           tt tt demo_names _ _ _ eq_refl E).
Defined.

Lemma destination_is_created_before_the_listing_witness :
  run_process_images demo_sys_missing demo_cfg tt
  = ([Makedirs (py "out"); Listdir (py "in")],
     mk_state tt zero_stats, inr OSError).
Proof.
  exact (destination_is_created_before_the_listing unit demo_sys_missing
           demo_cfg tt tt tt "o" (py "ut") eq_refl eq_refl eq_refl eq_refl).
Defined.

Lemma calls_are_those_the_statistics_tell_witness :
  let ev := fst (fst (run_process_images demo_sys demo_cfg tt)) in
  let s := mk_stats 4 1 1 0 1 1 in
  (count is_query ev = get total_files s - get files_skipped_no_date s)%Z /\
  (count is_write ev
   = get files_changed s + get files_metadata_replaced s
     + get files_error s)%Z /\
  count is_placement ev
  = (if in_place demo_cfg then 0 else count is_write ev)%Z.
Proof.
  assert (E : run_process_images demo_sys demo_cfg tt
              = (fst (fst (run_process_images demo_sys demo_cfg tt)),
                 snd (fst (run_process_images demo_sys demo_cfg tt)),
                 inl (mk_stats 4 1 1 0 1 1))) by reflexivity.
  exact (calls_are_those_the_statistics_tell unit demo_sys demo_cfg tt
           _ _ _ E).
Defined.

Lemma calls_concern_the_dated_names_of_the_listing_witness :
  let e := Copy2 (py "in/2023-04-16 bad.jpg") (py "out/2023-04-16 bad.jpg") in
  In e (preparation_calls demo_cfg) \/ e = Listdir (directory demo_cfg) \/
  exists filename out date_obj,
    In filename demo_names /\
    output_path demo_cfg filename = Some out /\
    extract_datetime_from_filename filename = Some date_obj /\
    In e (entry_calls demo_cfg filename out date_obj).
Proof.
  assert (E : run_process_images demo_sys demo_cfg tt
              = (fst (fst (run_process_images demo_sys demo_cfg tt)),
                 snd (fst (run_process_images demo_sys demo_cfg tt)),
                 snd (run_process_images demo_sys demo_cfg tt)))
    by reflexivity.
  refine (calls_concern_the_dated_names_of_the_listing unit demo_sys
            demo_cfg tt tt demo_names _ _ _ eq_refl E _ _).
  vm_compute. tauto.
Defined.

Lemma exceptions_of_a_run_witness :
  TypeError <> CalledProcessError /\
  (TypeError = TypeError ->
   in_place demo_cfg_nowhere = false /\ processed_dir demo_cfg_nowhere = None).
Proof.
  exact (exceptions_of_a_run unit demo_sys demo_cfg_nowhere tt
           [Listdir (py "in")] (mk_state tt (mk_stats 1 0 0 0 0 0))
           TypeError eq_refl).
Defined.

Lemma the_script_copies_and_replaces_witness :
  let ev := fst (fst (main demo_sys tt)) in
  let r := snd (main demo_sys tt) in
  (exists ev', ev = Makedirs (py "./Photos_All/Photos/processed") :: ev') /\
  r <> inr TypeError /\
  (forall a b, ~ In (Move a b) ev) /\
  (forall s, r = inl s -> get files_skipped_existing_metadata s = 0%Z).
Proof.
  assert (E : main demo_sys tt
              = (fst (fst (main demo_sys tt)), snd (fst (main demo_sys tt)),
                 snd (main demo_sys tt))) by reflexivity.
  exact (the_script_copies_and_replaces unit demo_sys tt _ _ _ E).
Defined.

Lemma written_date_is_the_date_token_of_the_name_witness :
  exists out,
    output_path demo_cfg (py "IMG_" ++ py "2023-04-15" ++ py " 14.30.05.jpg")
    = Some out /\
    write_command (py "2023:04:15 00:00:00")
                  (py "out/IMG_2023-04-15 14.30.05.jpg")
    = write_command
        (decimal (py_int (py "2023")) ++ ":" :: py "04" ++ ":" :: py "15"
         ++ py " 00:00:00") out /\
    ((1000 <= py_int (py "2023"))%Z -> decimal (py_int (py "2023")) = py "2023").
Proof.
  refine (written_date_is_the_date_token_of_the_name unit demo_sys demo_cfg
            (py "IMG_") (py "2023-04-15") (py " 14.30.05.jpg")
            (py "2023") (py "04") (py "15") (mk_state tt zero_stats)
            _ _ _ _ _ _ eq_refl _).
  - exists (py "-"), (py "-"). repeat split; reflexivity.
  - intros i Hi. do 4 (destruct i as [| i]; [reflexivity |]).
    simpl in Hi. lia.
  - simpl. right. right. left. reflexivity.
Defined.
